(** * ingest-client-go-sdk: a shallow embedding of client.go

    The development follows the layout of the Go package [client]:

    - the data model ([Message], [Messages], [Error], [Config], [Client]);
    - [NewClient] and [NewBufferedClient] with their defaulting rules;
    - the transport: [encoding], [calculateSignature],
      [doRequestWithContext], [isCaredError] and the retry loop of
      [Collect];
    - the batcher: [newBatch] and the [select] loop of [batchingLoop].

    Go values are modelled as the code has them: [time.Duration], [int] and
    [int64] are [Z] with the 64-bit wrap-around written out, [[]byte] is
    [list byte], [string] is [string], a nil-able interface is an [option].
    Calls that leave the package (the JSON/msgpack encoders, gzip, the HTTP
    round trip, the clock, the random source) are inputs of the model. *)

From Stdlib Require Import ZArith List String Ascii Bool Lia.
From Stdlib Require Import Strings.Byte DecimalString DecimalZ.
Import ListNotations.

Open Scope string_scope.
Open Scope list_scope.
Open Scope Z_scope.

(* ------------------------------------------------------------------ *)
(** ** Machine integers and durations *)

(** Two's-complement wrap of a mathematical integer into [int64]. *)
Definition wrap64 (z : Z) : Z :=
  (z + 2 ^ 63) mod 2 ^ 64 - 2 ^ 63.

Definition int64_min : Z := - 2 ^ 63.
Definition int64_max : Z := 2 ^ 63 - 1.

Definition in_int64 (z : Z) : Prop := int64_min <= z <= int64_max.

(** [time.Duration] is an [int64] count of nanoseconds. *)
Definition Duration := Z.

Definition Nanosecond : Duration := 1.
Definition Microsecond : Duration := 1000 * Nanosecond.
Definition Millisecond : Duration := 1000 * Microsecond.
Definition Second : Duration := 1000 * Millisecond.

(** [d * n] on [time.Duration]. *)
Definition dmul (d : Duration) (n : Z) : Duration := wrap64 (d * n).

(* ------------------------------------------------------------------ *)
(** ** Data model *)

(** [interface{}] payloads of a message: nil, a scalar, or a
    [map[string]interface{}] of scalars as the examples build them. *)
Inductive scalar : Type :=
| SInt (n : Z)
| SStr (s : string).

Inductive value : Type :=
| VNil
| VScalar (x : scalar)
| VMap (fields : list (string * scalar)).

Record Message : Type := mkMessage {
  Type_ : string;
  Data : value
}.

Record Messages : Type := mkMessages {
  BatchId : string;
  Msgs : list Message
}.

Record SubError : Type := mkSubError {
  Key : string;
  SubErr : string
}.

(** The struct [Error] returned for a non-200 reply. *)
Record Error : Type := mkError {
  StatusCode : Z;
  Status : string;
  Message_ : string;
  Errors : list SubError
}.

Definition Error_zero : Error := mkError 0 "" "" [].

(** The two values [ctx.Err()] can take once the context is done. *)
Inductive ctxErr : Type :=
| Canceled
| DeadlineExceeded.

(** Go [error] values as this package meets them.  [EWrap] is one link of
    an [Unwrap] chain (as [*url.Error], [*net.OpError] and
    [*os.SyscallError] build around a [syscall.Errno]). *)
Inductive error : Type :=
| EError (e : Error)
| EErrno (errno : Z)
| EContext (c : ctxErr)
| EString (msg : string)
| EWrap (op : string) (inner : error).

Inductive result (A : Type) : Type :=
| Ok (a : A)
| Err (e : error).
Arguments Ok {A} a.
Arguments Err {A} e.

(** log.go: the exported logger values a configuration can carry. *)
Inductive Logger : Type :=
| DefaultLogger
| NewLogger (writer : nat) (lvl : Z).

Record Config : Type := mkConfig {
  Endpoint : string;
  AccessKeyID : string;
  AccessKeySecret : string;
  ClientId : string;
  Encoding : string;
  NoCompression : bool;
  CompressionAlgo : string;
  RetryTimeIntervalInitial : Duration;
  RetryTimeIntervalMax : Duration;
  Logger_ : option Logger
}.

Record Client : Type := mkClient {
  conf : Config;
  reqCount : Z
}.

(* Functional record updates used by the constructors. *)
Definition set_Logger (c : Config) (l : option Logger) : Config :=
  mkConfig (Endpoint c) (AccessKeyID c) (AccessKeySecret c) (ClientId c)
           (Encoding c) (NoCompression c) (CompressionAlgo c)
           (RetryTimeIntervalInitial c) (RetryTimeIntervalMax c) l.

Definition set_RetryTimeIntervalInitial (c : Config) (d : Duration) : Config :=
  mkConfig (Endpoint c) (AccessKeyID c) (AccessKeySecret c) (ClientId c)
           (Encoding c) (NoCompression c) (CompressionAlgo c)
           d (RetryTimeIntervalMax c) (Logger_ c).

Definition set_RetryTimeIntervalMax (c : Config) (d : Duration) : Config :=
  mkConfig (Endpoint c) (AccessKeyID c) (AccessKeySecret c) (ClientId c)
           (Encoding c) (NoCompression c) (CompressionAlgo c)
           (RetryTimeIntervalInitial c) d (Logger_ c).

Definition set_Encoding (c : Config) (e : string) : Config :=
  mkConfig (Endpoint c) (AccessKeyID c) (AccessKeySecret c) (ClientId c)
           e (NoCompression c) (CompressionAlgo c)
           (RetryTimeIntervalInitial c) (RetryTimeIntervalMax c) (Logger_ c).

Definition set_CompressionAlgo (c : Config) (a : string) : Config :=
  mkConfig (Endpoint c) (AccessKeyID c) (AccessKeySecret c) (ClientId c)
           (Encoding c) (NoCompression c) a
           (RetryTimeIntervalInitial c) (RetryTimeIntervalMax c) (Logger_ c).

(* ------------------------------------------------------------------ *)
(** ** NewClient *)

(** The second [switch] of [NewClient], on [config.CompressionAlgo], and the
    final [return &Client{conf: config, ...}]. *)
Definition NewClient_compression (config : Config) : result Client :=
  let algo := CompressionAlgo config in
  if (algo =? "gzip")%string then
    Ok (mkClient config 0)
  else if (algo =? "")%string then
    Ok (mkClient (set_CompressionAlgo config "gzip") 0)
  else
    Err (EString ("unkonwn compressionAlgo " ++ algo)%string).

Definition NewClient (config : Config) : result Client :=
  if (Endpoint config =? "")%string then
    Err (EString "endpoint is required")
  else
    let config :=
      match Logger_ config with
      | None => set_Logger config (Some DefaultLogger)
      | Some _ => config
      end in
    let config :=
      if (RetryTimeIntervalInitial config =? 0)%Z
      then set_RetryTimeIntervalInitial config (dmul 100 Millisecond)
      else config in
    let config :=
      if (RetryTimeIntervalMax config =? 0)%Z
      then set_RetryTimeIntervalMax config (dmul 5 Second)
      else config in
    let enc := Encoding config in
    if ((enc =? "json") || (enc =? "msgpack"))%string then
      NewClient_compression config
    else if (enc =? "")%string then
      NewClient_compression (set_Encoding config "json")
    else
      Err (EString ("unkonwn encoding " ++ enc)%string).

(* ------------------------------------------------------------------ *)
(** ** Bytes, SHA-256, HMAC and base64

    [crypto/sha256], [crypto/hmac] and [encoding/base64] as
    [calculateSignature] and [doRequestWithContext] call them, written
    after FIPS 180-4, RFC 2104 and RFC 4648. *)

Definition Z_of_byte (b : byte) : Z := Z.of_N (Byte.to_N b).

Definition byte_of_Z (z : Z) : byte :=
  match Byte.of_N (Z.to_N (z mod 256)) with
  | Some b => b
  | None => x00
  end.

(** [[]byte(s)] *)
Definition bytes_of_string (s : string) : list byte := list_byte_of_string s.

(** [string(b)] *)
Definition string_of_bytes (b : list byte) : string := string_of_list_byte b.

Module SHA256.

Definition w32 (z : Z) : Z := z mod 2 ^ 32.
Definition add32 (x y : Z) : Z := w32 (x + y).
Definition rotr (n x : Z) : Z :=
  w32 (Z.lor (Z.shiftr x n) (Z.shiftl x (32 - n))).
Definition shr (n x : Z) : Z := Z.shiftr x n.

Definition Ch (x y z : Z) : Z :=
  Z.lxor (Z.land x y) (Z.land (w32 (Z.lnot x)) z).
Definition Maj (x y z : Z) : Z :=
  Z.lxor (Z.lxor (Z.land x y) (Z.land x z)) (Z.land y z).
Definition Sigma0 (x : Z) : Z :=
  Z.lxor (Z.lxor (rotr 2 x) (rotr 13 x)) (rotr 22 x).
Definition Sigma1 (x : Z) : Z :=
  Z.lxor (Z.lxor (rotr 6 x) (rotr 11 x)) (rotr 25 x).
Definition sigma0 (x : Z) : Z :=
  Z.lxor (Z.lxor (rotr 7 x) (rotr 18 x)) (shr 3 x).
Definition sigma1 (x : Z) : Z :=
  Z.lxor (Z.lxor (rotr 17 x) (rotr 19 x)) (shr 10 x).

(** The round constants are the first 32 bits of the fractional parts of
    the cube roots of the first 64 primes, the initial hash value those of
    the square roots of the first 8 primes. *)
Definition is_prime (n : Z) : bool :=
  forallb (fun d => negb (n mod Z.of_nat d =? 0)) (seq 2 (Z.to_nat n - 2)).

Definition primes_below (n : nat) : list Z :=
  filter is_prime (map Z.of_nat (seq 2 (n - 2))).

Definition icbrt (n : Z) : Z :=
  fold_left (fun r i => let c := r + 2 ^ Z.of_nat i in
                        if c * c * c <=? n then c else r)
            (rev (seq 0 44)) 0.

Definition frac32_cbrt (p : Z) : Z := icbrt (p * 2 ^ 96) mod 2 ^ 32.
Definition frac32_sqrt (p : Z) : Z := Z.sqrt (p * 2 ^ 64) mod 2 ^ 32.

Definition K : list Z :=
  Eval vm_compute in map frac32_cbrt (primes_below 312).

Definition H0 : list Z :=
  Eval vm_compute in map frac32_sqrt (primes_below 20).

(** Big-endian encodings. *)
Fixpoint be_bytes (n : nat) (z : Z) : list Z :=
  match n with
  | O => []
  | S n' => (Z.shiftr z (8 * Z.of_nat n')) mod 256 :: be_bytes n' z
  end.

Fixpoint be_words (bs : list Z) : list Z :=
  match bs with
  | a :: b :: c :: d :: rest =>
      (Z.shiftl a 24 + Z.shiftl b 16 + Z.shiftl c 8 + d) :: be_words rest
  | _ => []
  end.

(** The padded message: the bytes, 0x80, zeros up to 56 mod 64, and the
    bit List.length on 64 bits. *)
Definition pad (msg : list Z) : list Z :=
  let len := Z.of_nat (List.length msg) in
  let k := (55 - len) mod 64 in
  msg ++ [0x80] ++ repeat 0 (Z.to_nat k) ++ be_bytes 8 (8 * len).

(** Message schedule: 16 words extended to 64. *)
Fixpoint extend (n : nat) (w : list Z) : list Z :=
  match n with
  | O => w
  | S n' =>
      let t := List.length w in
      let at_ (i : nat) := nth (t - i) w 0 in
      extend n' (w ++ [add32 (add32 (sigma1 (at_ 2%nat)) (at_ 7%nat))
                             (add32 (sigma0 (at_ 15%nat)) (at_ 16%nat))])
  end.

Definition round (st : list Z) (kw : Z * Z) : list Z :=
  match st with
  | [a; b; c; d; e; f; g; h] =>
      let t1 := add32 (add32 (add32 h (Sigma1 e)) (add32 (Ch e f g) (fst kw)))
                      (snd kw) in
      let t2 := add32 (Sigma0 a) (Maj a b c) in
      [add32 t1 t2; a; b; c; add32 d t1; e; f; g]
  | _ => st
  end.

Definition process (h : list Z) (block : list Z) : list Z :=
  let w := extend 48 (be_words block) in
  let st := fold_left round (combine K w) h in
  map (fun p => add32 (fst p) (snd p)) (combine h st).

Fixpoint blocks (fuel : nat) (bs : list Z) : list (list Z) :=
  match fuel, bs with
  | S fuel', _ :: _ => firstn 64 bs :: blocks fuel' (skipn 64 bs)
  | _, _ => []
  end.

Definition sum (msg : list byte) : list byte :=
  let padded := pad (map Z_of_byte msg) in
  let h := fold_left process (blocks (List.length padded) padded) H0 in
  map byte_of_Z (flat_map (be_bytes 4) h).

Definition BlockSize : nat := 64.

End SHA256.

Module HMAC.

Definition xor_pad (c : Z) (key : list byte) : list byte :=
  map (fun b => byte_of_Z (Z.lxor (Z_of_byte b) c)) key.

(** Keys longer than a block are hashed; shorter ones are zero-filled. *)
Definition block_key (key : list byte) : list byte :=
  let k := if (SHA256.BlockSize <? List.length key)%nat
           then SHA256.sum key else key in
  k ++ repeat x00 (SHA256.BlockSize - List.length k).

Definition sha256 (key msg : list byte) : list byte :=
  let k := block_key key in
  SHA256.sum (xor_pad 0x5c k ++ SHA256.sum (xor_pad 0x36 k ++ msg)).

(** The [hash.Hash] returned by [hmac.New(sha256.New, key)]: [Write]
    appends to the authenticated message, [Sum(nil)] yields its MAC. *)
Record state : Type := mkState {
  key : list byte;
  written : list byte
}.

Definition New (k : list byte) : state := mkState k [].
Definition Write (h : state) (p : list byte) : state :=
  mkState (key h) (written h ++ p).
Definition Sum (h : state) : list byte := sha256 (key h) (written h).

End HMAC.

Module Base64.

Definition alphabet : list ascii :=
  list_ascii_of_string
    "ABCDEFGHIJKLMNOPQRSTUVWXYZabcdefghijklmnopqrstuvwxyz0123456789+/".

Definition enc (i : Z) : ascii := nth (Z.to_nat (i mod 64)) alphabet "A"%char.

(** [base64.StdEncoding.EncodeToString]: 3 bytes give 4 characters; a
    tail of 1 or 2 bytes is padded with '='. *)
Fixpoint encode (bs : list Z) : list ascii :=
  match bs with
  | [] => []
  | [a] =>
      [enc (Z.shiftr a 2); enc (Z.shiftl (Z.land a 3) 4); "="%char; "="%char]
  | [a; b] =>
      [enc (Z.shiftr a 2);
       enc (Z.lor (Z.shiftl (Z.land a 3) 4) (Z.shiftr b 4));
       enc (Z.shiftl (Z.land b 15) 2); "="%char]
  | a :: b :: c :: rest =>
      enc (Z.shiftr a 2)
      :: enc (Z.lor (Z.shiftl (Z.land a 3) 4) (Z.shiftr b 4))
      :: enc (Z.lor (Z.shiftl (Z.land b 15) 2) (Z.shiftr c 6))
      :: enc (Z.land c 63)
      :: encode rest
  end.

Definition EncodeToString (src : list byte) : string :=
  string_of_list_ascii (encode (map Z_of_byte src)).

End Base64.

(** Lower-case hexadecimal rendering, for reading digests in examples. *)
Definition hexdigit (z : Z) : ascii :=
  nth (Z.to_nat z) (list_ascii_of_string "0123456789abcdef") "0"%char.
Definition hex (bs : list byte) : string :=
  string_of_list_ascii
    (flat_map (fun b => [hexdigit (Z_of_byte b / 16); hexdigit (Z_of_byte b mod 16)]) bs).

(* ------------------------------------------------------------------ *)
(** ** Decimal printing: [strconv.Itoa], [fmt.Sprint] and ["%d"] *)

Definition Itoa (z : Z) : string := NilZero.string_of_int (Z.to_int z).

(* ------------------------------------------------------------------ *)
(** ** The calls that leave the package

    [fastjson.Marshal], [msgpack.Marshal], the gzip writer, the method/URL
    check of [http.NewRequest] and [json.Unmarshal] into an [Error]. *)

Record Runtime : Type := mkRuntime {
  fastjson_Marshal : Messages -> result (list byte);
  msgpack_Marshal : Messages -> result (list byte);
  gzip_Write : list byte -> result (list byte);
  gzip_Close : list byte -> result (list byte);
  http_NewRequest : string -> string -> option error;
  json_Unmarshal : list byte -> Error -> Error * option error
}.

(** What the network and the runtime do during one pass through the
    [retry:] label: the clock and random source read by
    [doRequestWithContext], the outcome of [httpClient.Do] followed by
    [ioutil.ReadAll], and which case of the backoff [select] fires. *)
Inductive RoundTrip : Type :=
| DoError (e : error)
| ReadError (e : error)
| Response (code : Z) (status : string) (body : list byte).

Inductive Wait : Type :=
| Elapsed
| CtxDone (c : ctxErr).

Record Attempt : Type := mkAttempt {
  now_unix : Z;
  rand_int : Z;
  reply : RoundTrip;
  wait : Wait
}.

(* ------------------------------------------------------------------ *)
(** ** HTTP requests *)

Record Request : Type := mkRequest {
  Method : string;
  URL : string;
  Body : list byte;
  Close : bool;
  Header : list (string * string)
}.

Definition Header_Set (k v : string) (h : list (string * string))
  : list (string * string) :=
  (k, v) :: filter (fun p => negb (fst p =? k)%string) h.

Fixpoint Header_Get (k : string) (h : list (string * string)) : option string :=
  match h with
  | [] => None
  | (k', v) :: h' => if (k' =? k)%string then Some v else Header_Get k h'
  end.

Definition req_set (k v : string) (r : Request) : Request :=
  mkRequest (Method r) (URL r) (Body r) (Close r) (Header_Set k v (Header r)).

Definition req_close (r : Request) : Request :=
  mkRequest (Method r) (URL r) (Body r) true (Header r).

(** [path.Join] of two slash-free, non-empty elements. *)
Definition path_Join (a b : string) : string := (a ++ "/" ++ b)%string.

(* ------------------------------------------------------------------ *)
(** ** encoding and compress *)

Inductive encoding_case : Type :=
| CaseJson
| CaseMsgpack
| CaseUnsupported.

(** The [if / else if / else] of [encoding]. *)
Definition encoding_branch (enc : string) : encoding_case :=
  if (enc =? "json")%string then CaseJson
  else if (enc =? "msgpack")%string then CaseMsgpack
  else CaseUnsupported.

Definition encoding (rt : Runtime) (enc : string) (v : Messages)
  : result (list byte) :=
  match encoding_branch enc with
  | CaseJson =>
      match fastjson_Marshal rt v with
      | Err err => Err err
      | Ok data => Ok data
      end
  | CaseMsgpack =>
      match msgpack_Marshal rt v with
      | Err err => Err err
      | Ok data => Ok data
      end
  | CaseUnsupported => Err (EString "unsupported compression format")
  end.

Definition compress (rt : Runtime) (content : list byte) : result (list byte) :=
  match gzip_Write rt content with
  | Err err => Err err
  | Ok buf =>
      match gzip_Close rt buf with
      | Err err => Err err
      | Ok out => Ok out
      end
  end.

(* ------------------------------------------------------------------ *)
(** ** calculateSignature *)

Definition calculateSignature
           (method url accessKeyId timestamp nonce accessKeySecret : string)
           (body : list byte) : list byte :=
  let h := HMAC.New (bytes_of_string accessKeySecret) in
  let h := HMAC.Write h (bytes_of_string method) in
  let h := HMAC.Write h (bytes_of_string url) in
  let h := HMAC.Write h (bytes_of_string accessKeyId) in
  let h := HMAC.Write h (bytes_of_string nonce) in
  let h := HMAC.Write h (bytes_of_string timestamp) in
  let h := HMAC.Write h body in
  HMAC.Sum h.

(* ------------------------------------------------------------------ *)
(** ** doRequestWithContext *)

Definition Error_with_Message (e : Error) (m : string) : Error :=
  mkError (StatusCode e) (Status e) m (Errors e).
Definition Error_with_StatusCode (e : Error) (c : Z) : Error :=
  mkError c (Status e) (Message_ e) (Errors e).
Definition Error_with_Status (e : Error) (s : string) : Error :=
  mkError (StatusCode e) s (Message_ e) (Errors e).

(** Returns the request as it went on the wire together with the error
    value of the Go function ([None] is [nil]). *)
Definition doRequestWithContext (rt : Runtime) (c : Config) (req : Request)
           (method api : string) (data : list byte) (a : Attempt)
  : Request * option error :=
  let timestamp := Itoa (now_unix a) in
  let nonce := Itoa (rand_int a) in
  let req := req_set "X-AccessKeyId" (AccessKeyID c) req in
  let req := req_set "X-Timestamp" timestamp req in
  let req := req_set "X-Nonce" nonce req in
  let signature :=
    calculateSignature method api (AccessKeyID c) timestamp nonce
                       (AccessKeySecret c) data in
  let req := req_set "X-Signature" (Base64.EncodeToString signature) req in
  let req := req_set "User-Agent" "turbine-ingest-client/unknown" req in
  match reply a with
  | DoError err => (req, Some err)
  | ReadError err => (req, Some err)
  | Response code status responseBody =>
      if negb (code =? 200) then
        let '(rerr, err) := json_Unmarshal rt responseBody Error_zero in
        let rerr :=
          match err with
          | Some _ => Error_with_Message rerr (string_of_bytes responseBody)
          | None => rerr
          end in
        let rerr := Error_with_StatusCode rerr code in
        let rerr := Error_with_Status rerr status in
        (req, Some (EError rerr))
      else (req, None)
  end.

(* ------------------------------------------------------------------ *)
(** ** isCaredError *)

Definition StatusRequestTimeout : Z := 408.
Definition StatusTooManyRequests : Z := 429.
Definition StatusBadGateway : Z := 502.
Definition StatusServiceUnavailable : Z := 503.
Definition StatusGatewayTimeout : Z := 504.

(** [syscall.Errno] values (linux). *)
Definition ETIMEDOUT : Z := 0x6e.
Definition ECONNREFUSED : Z := 0x6f.

(** [errors.As(err, &innerErr)] for [innerErr] of type [Error]. *)
Fixpoint errors_As_Error (err : error) : option Error :=
  match err with
  | EError e => Some e
  | EWrap _ inner => errors_As_Error inner
  | _ => None
  end.

(** [errors.Is(err, target)] for a [syscall.Errno] target. *)
Fixpoint errors_Is_Errno (err : error) (target : Z) : bool :=
  match err with
  | EErrno n => n =? target
  | EWrap _ inner => errors_Is_Errno inner target
  | _ => false
  end.

Definition isCaredError (err : error) : bool :=
  match errors_As_Error err with
  | Some innerErr =>
      if (StatusCode innerErr =? StatusTooManyRequests)
         || (StatusCode innerErr =? StatusRequestTimeout)
      then true
      else if (StatusCode innerErr =? StatusBadGateway)
              || (StatusCode innerErr =? StatusServiceUnavailable)
              || (StatusCode innerErr =? StatusGatewayTimeout)
      then true
      else false
  | None =>
      if errors_Is_Errno err ETIMEDOUT || errors_Is_Errno err ECONNREFUSED
      then true
      else false
  end.

(* ------------------------------------------------------------------ *)
(** ** Collect *)

(** What one call of [Collect] does that is visible outside: each
    [httpClient.Do], each idle-connection purge, each backoff timer
    started with [time.After]. *)
Inductive Event : Type :=
| CloseIdleConnections
| Do (req : Request)
| After (d : Duration).

(** [Returned err] is the value of the Go function; [Retrying] says the
    loop stands at [retry:] about to issue a request the script says
    nothing about. *)
Inductive Outcome : Type :=
| Returned (err : option error)
| Retrying.

Record Run : Type := mkRun {
  trace : list Event;
  outcome : Outcome;
  reqCount' : Z
}.

Definition method_ : string := "POST".
Definition api_ : string := "/v1/collect".

(** The body of [Collect] from the [retry:] label on.  [timeInterval] and
    [reqCount] are the mutable variables the [goto] carries around. *)
Fixpoint retry (rt : Runtime) (c : Config) (data : list byte)
         (timeInterval timeIntervalMax : Duration) (reqCount : Z)
         (script : list Attempt) : Run :=
  match http_NewRequest rt method_ (Endpoint c ++ api_)%string with
  | Some err => mkRun [] (Returned (Some err)) reqCount
  | None =>
      match script with
      | [] => mkRun [] Retrying reqCount
      | a :: script' =>
          let req := mkRequest method_ (Endpoint c ++ api_)%string data false [] in
          let reqCount := wrap64 (reqCount + 1) in
          let cycle := Z.rem reqCount 20 =? 0 in
          let req := if cycle then req_close req else req in
          let req := req_set "Content-Type"
                             (path_Join "application" (Encoding c)) req in
          let req := req_set "X-Ingest-Client-ID" (ClientId c) req in
          let req := if negb (NoCompression c)
                     then req_set "Content-Encoding" "gzip" req else req in
          let '(req, res) := doRequestWithContext rt c req method_ api_ data a in
          let pre := (if cycle then [CloseIdleConnections] else []) ++ [Do req] in
          match res with
          | None => mkRun pre (Returned None) reqCount
          | Some err =>
              if isCaredError err then
                let timeInterval := dmul timeInterval 2 in
                let timeInterval :=
                  if timeInterval >=? timeIntervalMax
                  then timeIntervalMax else timeInterval in
                match wait a with
                | Elapsed =>
                    let r := retry rt c data timeInterval timeIntervalMax
                                   reqCount script' in
                    mkRun (pre ++ After timeInterval :: trace r)
                          (outcome r) (reqCount' r)
                | CtxDone ce =>
                    mkRun (pre ++ [After timeInterval])
                          (Returned (Some (EContext ce))) reqCount
                end
              else mkRun pre (Returned (Some err)) reqCount
          end
      end
  end.

Definition Collect (rt : Runtime) (c : Client) (messages : Messages)
           (script : list Attempt) : Run :=
  let timeInterval := RetryTimeIntervalInitial (conf c) in
  let timeIntervalMax := RetryTimeIntervalMax (conf c) in
  match encoding rt (Encoding (conf c)) messages with
  | Err err => mkRun [] (Returned (Some err)) (reqCount c)
  | Ok data =>
      let compressed :=
        if negb (NoCompression (conf c)) then compress rt data else Ok data in
      match compressed with
      | Err err => mkRun [] (Returned (Some err)) (reqCount c)
      | Ok data =>
          retry rt (conf c) data timeInterval timeIntervalMax (reqCount c) script
      end
  end.

(** The send attempts and the backoff waits of a run, in order. *)
Definition sends (r : Run) : list Request :=
  flat_map (fun e => match e with Do q => [q] | _ => [] end) (trace r).

Definition waits (r : Run) : list Duration :=
  flat_map (fun e => match e with After d => [d] | _ => [] end) (trace r).

(* ------------------------------------------------------------------ *)
(** ** BufferedClient *)

Record BufferedClientConfig : Type := mkBufferedClientConfig {
  bEndpoint : string;
  bAccessKeyID : string;
  bAccessKeySecret : string;
  bClientId : string;
  bEncoding : string;
  bNoCompression : bool;
  bCompressionAlgo : string;
  bRetryTimeIntervalInitial : Duration;
  bRetryTimeIntervalMax : Duration;
  MaxMessagesPerBatch : Z;
  MaxDurationPerBatch : Duration;
  MaxConcurrency : Z;
  bLogger : option Logger
}.

Definition set_MaxMessagesPerBatch (c : BufferedClientConfig) (n : Z) :=
  mkBufferedClientConfig
    (bEndpoint c) (bAccessKeyID c) (bAccessKeySecret c) (bClientId c)
    (bEncoding c) (bNoCompression c) (bCompressionAlgo c)
    (bRetryTimeIntervalInitial c) (bRetryTimeIntervalMax c)
    n (MaxDurationPerBatch c) (MaxConcurrency c) (bLogger c).

Definition set_MaxDurationPerBatch (c : BufferedClientConfig) (d : Duration) :=
  mkBufferedClientConfig
    (bEndpoint c) (bAccessKeyID c) (bAccessKeySecret c) (bClientId c)
    (bEncoding c) (bNoCompression c) (bCompressionAlgo c)
    (bRetryTimeIntervalInitial c) (bRetryTimeIntervalMax c)
    (MaxMessagesPerBatch c) d (MaxConcurrency c) (bLogger c).

Definition set_MaxConcurrency (c : BufferedClientConfig) (n : Z) :=
  mkBufferedClientConfig
    (bEndpoint c) (bAccessKeyID c) (bAccessKeySecret c) (bClientId c)
    (bEncoding c) (bNoCompression c) (bCompressionAlgo c)
    (bRetryTimeIntervalInitial c) (bRetryTimeIntervalMax c)
    (MaxMessagesPerBatch c) (MaxDurationPerBatch c) n (bLogger c).

(** The fields of the struct that are plain data; the channels are the
    inputs and outputs of the loops below. *)
Record BufferedClient : Type := mkBufferedClient {
  bconf : BufferedClientConfig;
  client : Client;
  nextBatchID : Z;
  closed : Z
}.

Definition NewBufferedClient (config : BufferedClientConfig)
  : result BufferedClient :=
  let clientConfig :=
    mkConfig (bEndpoint config) (bAccessKeyID config)
             (bAccessKeySecret config) (bClientId config)
             (bEncoding config) (bNoCompression config)
             (bCompressionAlgo config)
             (bRetryTimeIntervalInitial config)
             (bRetryTimeIntervalMax config) (bLogger config) in
  match NewClient clientConfig with
  | Err err => Err err
  | Ok client =>
      let config :=
        if MaxMessagesPerBatch config =? 0
        then set_MaxMessagesPerBatch config 2000 else config in
      let config :=
        if MaxDurationPerBatch config =? 0
        then set_MaxDurationPerBatch config (dmul 50 Millisecond)
        else config in
      let config :=
        if MaxConcurrency config =? 0
        then set_MaxConcurrency config 10 else config in
      Ok (mkBufferedClient config client 0 0)
  end.

(** A method call on the logger a component holds: calling through a nil
    interface panics. *)
Definition Logger_call (l : option Logger) : bool :=
  match l with
  | Some _ => true
  | None => false
  end.

(* ------------------------------------------------------------------ *)
(** ** batchingLoop *)

(** [time.Time.UnixMilli] of an instant given in nanoseconds. *)
Definition UnixMilli (now : Z) : Z := now / 1000000.

(** The closure [newBatch]: the id is printed with ["b-%d-%d"] from the
    wall clock and the counter, then the counter is incremented. *)
Definition batchID (millis counter : Z) : string :=
  ("b-" ++ Itoa millis ++ "-" ++ Itoa counter)%string.

Definition newBatch (now : Z) (nextBatchID : Z) : Messages * Z :=
  (mkMessages (batchID (UnixMilli now) nextBatchID) [],
   wrap64 (nextBatchID + 1)).

(** The cases of the [select]. *)
Inductive Select : Type :=
| RecvMsg (msg : Message)
| TimerC
| CloseCh.

(** The loop's variables.  [timer] is [Some t] while the one-shot timer is
    set to fire at instant [t], and [None] once its tick has been
    received: a [time.Timer] sends on its channel once per [NewTimer] or
    [Reset], and [Reset] sets it anew, dropping a tick not yet received.
    [outBatches] lists the batches handed over, oldest first; [exited] is
    set by the [return] of the close case. *)
Record Batcher : Type := mkBatcher {
  b : Messages;
  counter : Z;
  timer : option Z;
  outBatches : list Messages;
  exited : bool
}.

(** Entry of [batchingLoop] at instant [now]: [time.NewTimer] and the
    first [newBatch]. *)
Definition batchingLoop_init (conf : BufferedClientConfig) (next : Z) (now : Z)
  : Batcher :=
  let '(b0, next') := newBatch now next in
  mkBatcher b0 next' (Some (now + MaxDurationPerBatch conf)) [] false.

(** One iteration of the [for { select { ... } }] at instant [now].
    [None] means the case cannot be taken: the loop has returned, or the
    timer channel holds no tick. *)
Definition batchingLoop_step (conf : BufferedClientConfig) (s : Batcher)
           (now : Z) (ev : Select) : option Batcher :=
  if exited s then None else
  match ev with
  | RecvMsg msg =>
      let b1 := mkMessages (BatchId (b s)) (Msgs (b s) ++ [msg]) in
      if Z.of_nat (List.length (Msgs b1)) >=? MaxMessagesPerBatch conf then
        let '(b2, next') := newBatch now (counter s) in
        Some (mkBatcher b2 next' (Some (now + MaxDurationPerBatch conf))
                        (outBatches s ++ [b1]) false)
      else
        Some (mkBatcher b1 (counter s) (timer s) (outBatches s) false)
  | TimerC =>
      match timer s with
      | Some t =>
          if t <=? now then
            if Z.of_nat (List.length (Msgs (b s))) >? 0 then
              let '(b2, next') := newBatch now (counter s) in
              Some (mkBatcher b2 next' None (outBatches s ++ [b s]) false)
            else
              Some (mkBatcher (b s) (counter s) None (outBatches s) false)
          else None
      | None => None
      end
  | CloseCh =>
      if Z.of_nat (List.length (Msgs (b s))) >? 0 then
        Some (mkBatcher (b s) (counter s) (timer s) (outBatches s ++ [b s]) true)
      else
        Some (mkBatcher (b s) (counter s) (timer s) (outBatches s) true)
  end.

(** The loop over a schedule of timed select cases. *)
Fixpoint batchingLoop_run (conf : BufferedClientConfig) (s : Batcher)
         (sched : list (Z * Select)) : option Batcher :=
  match sched with
  | [] => Some s
  | (now, ev) :: sched' =>
      match batchingLoop_step conf s now ev with
      | Some s' => batchingLoop_run conf s' sched'
      | None => None
      end
  end.

Definition batchingLoop (bc : BufferedClient) (start : Z)
           (sched : list (Z * Select)) : option Batcher :=
  batchingLoop_run (bconf bc)
                   (batchingLoop_init (bconf bc) (nextBatchID bc) start) sched.

(* ------------------------------------------------------------------ *)
(** ** Error.Error *)

(** [fmt.Sprintf("http code: %v: %v", err.StatusCode, err.Message)] *)
Definition Error_Error (err : Error) : string :=
  ("http code: " ++ Itoa (StatusCode err) ++ ": " ++ Message_ err)%string.

(** The [Error()] text of the error values of the model. *)
Fixpoint error_string (e : error) : string :=
  match e with
  | EError err => Error_Error err
  | EErrno n => ("errno " ++ Itoa n)%string
  | EContext Canceled => "context canceled"
  | EContext DeadlineExceeded => "context deadline exceeded"
  | EString msg => msg
  | EWrap op inner => (op ++ ": " ++ error_string inner)%string
  end.

(* ================================================================== *)
(** * Specification-level definitions and sample inputs

    The functions the statements below are phrased with (closed forms,
    projections of a run, the groups a message stream is cut into) and
    the concrete clients, replies and schedules the examples run on. *)

(** ** A runtime for worked examples

    The encoders print the batch id, gzip frames the payload between two
    marker bytes, and the JSON decoder accepts exactly the bodies that open
    with a brace, reading them as [{"error": "rejected"}]. *)

Definition exampleUnmarshal (body : list byte) (into : Error)
  : Error * option error :=
  match body with
  | "{"%byte :: _ => (Error_with_Message into "rejected", None)
  | _ => (into, Some (EString "invalid character looking for beginning of value"))
  end.

Definition exampleRuntime : Runtime :=
  mkRuntime
    (fun m => Ok (bytes_of_string ("{batchId:" ++ BatchId m ++ "}")%string))
    (fun m => Ok (x81 :: bytes_of_string (BatchId m)))
    (fun content => Ok (x1f :: content))
    (fun buf => Ok (buf ++ [x00]))
    (fun _ _ => None)
    exampleUnmarshal.

Definition exampleConfig : Config :=
  mkConfig "http://localhost:8088" "admin" "adminSecret" "" "" false ""
           0 0 None.

Definition exampleMessages : Messages :=
  mkMessages "b-1-0" [mkMessage "Event" (VMap [("pid", SInt 42)])].

Definition orDefaultZ (supplied default : Z) : Z :=
  if supplied =? 0 then default else supplied.

Definition orDefaultString (supplied default : string) : string :=
  if (supplied =? "")%string then default else supplied.

Definition orDefaultLogger (supplied : option Logger) : option Logger :=
  match supplied with
  | None => Some DefaultLogger
  | Some l => Some l
  end.

(** [NewClient] in two stages: the three defaults that cannot fail, then
    the two switches. *)
Definition NewClient_switches (config : Config) : result Client :=
  let enc := Encoding config in
  if ((enc =? "json") || (enc =? "msgpack"))%string then
    NewClient_compression config
  else if (enc =? "")%string then
    NewClient_compression (set_Encoding config "json")
  else
    Err (EString ("unkonwn encoding " ++ enc)%string).

Definition exampleBufferedConfig : BufferedClientConfig :=
  mkBufferedClientConfig "http://localhost:8088" "admin" "adminSecret" ""
                         "" false "" 0 0 0 0 0 None.

(** The error of one attempt depends on the reply alone. *)
Definition reply_error (rt : Runtime) (r : RoundTrip) : option error :=
  match r with
  | DoError err => Some err
  | ReadError err => Some err
  | Response code status responseBody =>
      if code =? 200 then None
      else
        let rerr :=
          match snd (json_Unmarshal rt responseBody Error_zero) with
          | Some _ =>
              Error_with_Message (fst (json_Unmarshal rt responseBody Error_zero))
                                 (string_of_bytes responseBody)
          | None => fst (json_Unmarshal rt responseBody Error_zero)
          end in
        Some (EError (mkError code status (Message_ rerr) (Errors rerr)))
  end.

(** The request an attempt puts on the wire: the caller's request with
    the five headers [doRequestWithContext] sets. *)
Definition signed (c : Config) (req : Request) (method api : string)
           (data : list byte) (a : Attempt) : Request :=
  let timestamp := Itoa (now_unix a) in
  let nonce := Itoa (rand_int a) in
  req_set "User-Agent" "turbine-ingest-client/unknown"
    (req_set "X-Signature"
       (Base64.EncodeToString
          (calculateSignature method api (AccessKeyID c) timestamp nonce
                              (AccessKeySecret c) data))
       (req_set "X-Nonce" nonce
          (req_set "X-Timestamp" timestamp
             (req_set "X-AccessKeyId" (AccessKeyID c) req)))).

(** The interval update made before each backoff wait. *)
Definition backoff (timeInterval timeIntervalMax : Duration) : Duration :=
  if dmul timeInterval 2 >=? timeIntervalMax
  then timeIntervalMax else dmul timeInterval 2.

(** The request built at the [retry:] label once [reqCount] has been
    incremented to [n], before it is signed. *)
Definition outgoing (c : Config) (data : list byte) (n : Z) : Request :=
  let req := mkRequest method_ (Endpoint c ++ api_)%string data false [] in
  let req := if Z.rem n 20 =? 0 then req_close req else req in
  let req := req_set "Content-Type" (path_Join "application" (Encoding c)) req in
  let req := req_set "X-Ingest-Client-ID" (ClientId c) req in
  if negb (NoCompression c)
  then req_set "Content-Encoding" "gzip" req else req.

(** An attempt after which the loop goes round again: its error is cared
    for and the timer case of the [select] fires. *)
Definition retried (rt : Runtime) (a : Attempt) : bool :=
  match reply_error rt (reply a) with
  | Some err =>
      isCaredError err && match wait a with Elapsed => true | CtxDone _ => false end
  | None => false
  end.

Definition purge (n : Z) : list Event :=
  if Z.rem n 20 =? 0 then [CloseIdleConnections] else [].

Definition trace_sends (tr : list Event) : list Request :=
  flat_map (fun e => match e with Do q => [q] | _ => [] end) tr.
Definition trace_waits (tr : list Event) : list Duration :=
  flat_map (fun e => match e with After d => [d] | _ => [] end) tr.

(** [Collect] up to the [retry:] label: serialize, then compress unless
    switched off. *)
Definition Collect_body (rt : Runtime) (c : Config) (messages : Messages)
  : result (list byte) :=
  match encoding rt (Encoding c) messages with
  | Err err => Err err
  | Ok data => if negb (NoCompression c) then compress rt data else Ok data
  end.

Definition defaultClient : Client :=
  mkClient (mkConfig "http://localhost:8088" "admin" "adminSecret" ""
                     "json" false "gzip" (100 * Millisecond) (5 * Second)
                     (Some DefaultLogger)) 0.

Definition unavailable : Attempt :=
  mkAttempt 1700000000 42
            (Response 503 "503 Service Unavailable" (bytes_of_string "busy"))
            Elapsed.

Definition accepted : Attempt :=
  mkAttempt 1700000001 43 (Response 200 "200 OK" []) Elapsed.

Definition retryable_status (code : Z) : Prop :=
  code = 429 \/ code = 408 \/ code = 502 \/ code = 503 \/ code = 504.

(** A serialization error comes back with nothing sent at all. *)
Definition brokenEncoder : Runtime :=
  mkRuntime (fun _ => Err (EString "json: unsupported value"))
            (fun _ => Err (EString "msgpack: unsupported value"))
            (fun content => Ok content) (fun buf => Ok buf)
            (fun _ _ => None) exampleUnmarshal.

Definition rejected : Attempt :=
  mkAttempt 1700000002 44
            (Response 400 "400 Bad Request" (bytes_of_string "{}")) Elapsed.

Definition unavailable_then_cancelled : Attempt :=
  mkAttempt 1700000003 45
            (Response 503 "503 Service Unavailable" (bytes_of_string "busy"))
            (CtxDone DeadlineExceeded).

Definition created : Attempt :=
  mkAttempt 1700000004 46 (Response 201 "201 Created" []) Elapsed.

(** The signature as the wire contract describes it: base64 of the
    HMAC-SHA256, keyed by the secret, of method, path, access key id,
    nonce, timestamp and body, concatenated in that order. *)
Definition signature_of (secret method path accessKeyId nonce timestamp : string)
           (body : list byte) : string :=
  Base64.EncodeToString
    (HMAC.sha256 (bytes_of_string secret)
       (bytes_of_string method ++ bytes_of_string path
        ++ bytes_of_string accessKeyId ++ bytes_of_string nonce
        ++ bytes_of_string timestamp ++ body)).

Definition recv (tm : Z * Message) : Z * Select := (fst tm, RecvMsg (snd tm)).


Definition size (l : list Message) : Z := Z.of_nat (List.length l).

(** The identifiers issued so far, in issuance order: those of the
    batches handed over, then that of the open batch unless the close case
    has just handed it over too. *)
Definition issued (s : Batcher) : list string :=
  if exited s && (Z.of_nat (List.length (Msgs (b s))) >? 0)
  then map BatchId (outBatches s)
  else map BatchId (outBatches s) ++ [BatchId (b s)].


Definition loginEvent : Message :=
  mkMessage "Event" (VMap [("#event", SStr "login"); ("pid", SInt 42)]).

Definition thousandConfig : BufferedClientConfig :=
  mkBufferedClientConfig "http://localhost:8088" "admin" "adminSecret" ""
                         "" false "" 0 0 1000 0 0 (Some DefaultLogger).


Definition singleConfig : BufferedClientConfig :=
  mkBufferedClientConfig "http://localhost:8088" "admin" "adminSecret" ""
                         "" false "" 0 0 1 (50 * Millisecond) 10
                         (Some DefaultLogger).

Definition ms (n : Z) : Z := n * Millisecond.

(** Default limits (2000 messages, 50ms).  A message at 10ms, the tick at
    50ms sealing it, a second message at 60ms: that message waits in the
    open batch and no tick is left to seal it. *)
Definition agedConfig : BufferedClientConfig :=
  mkBufferedClientConfig "http://localhost:8088" "admin" "adminSecret" ""
                         "" false "" 0 0 2000 (ms 50) 10 (Some DefaultLogger).

Definition afterTick : Batcher :=
  mkBatcher (mkMessages "b-50-1" []) 2 None
            [mkMessages "b-0-0" [loginEvent]] false.

Definition afterSecondMessage : Batcher :=
  mkBatcher (mkMessages "b-50-1" [loginEvent]) 2 None
            [mkMessages "b-0-0" [loginEvent]] false.

(** The innermost error of an [Unwrap] chain. *)
Fixpoint root (e : error) : error :=
  match e with
  | EWrap _ inner => root inner
  | _ => e
  end.

(** Each element is at most its successor. *)
Fixpoint nondecreasing (l : list Z) : Prop :=
  match l with
  | x :: (y :: _) as tl => x <= y /\ nondecreasing tl
  | _ => True
  end.

(** A client whose intervals sit just below the [int64] range: doubling
    the interval wraps it to a negative duration. *)
Definition hugeIntervalClient : Client :=
  mkClient (mkConfig "http://localhost:8088" "admin" "adminSecret" ""
                     "json" false "gzip" (3 * 2 ^ 60) (2 ^ 63 - 1)
                     (Some DefaultLogger)) 0.

Definition refused : Attempt :=
  mkAttempt 1700000005 47
            (DoError (EWrap "Post" (EWrap "dial tcp" (EWrap "connect"
                       (EErrno ECONNREFUSED))))) Elapsed.

Definition cancelled_in_flight : Attempt :=
  mkAttempt 1700000006 48
            (DoError (EWrap "Post" (EContext Canceled))) Elapsed.

Definition notJSON : Attempt :=
  mkAttempt 1700000007 49
            (Response 500 "500 Internal Server Error"
                      (bytes_of_string "upstream exploded")) Elapsed.

(** The idle-connection purges of a trace. *)
Definition trace_purges (tr : list Event) : nat :=
  List.length (filter (fun e => match e with CloseIdleConnections => true
                                        | _ => false end) tr).

(** The [Config] that [NewBufferedClient] hands to [NewClient]. *)
Definition clientConfig_of (config : BufferedClientConfig) : Config :=
  mkConfig (bEndpoint config) (bAccessKeyID config)
           (bAccessKeySecret config) (bClientId config)
           (bEncoding config) (bNoCompression config)
           (bCompressionAlgo config)
           (bRetryTimeIntervalInitial config)
           (bRetryTimeIntervalMax config) (bLogger config).

Definition badEncodingConfig : Config :=
  mkConfig "http://localhost:8088" "admin" "adminSecret" "" "xml" false
           "zstd" 0 0 None.

(** The messages a schedule delivers, in order. *)
Definition received (sched : list (Z * Select)) : list Message :=
  flat_map (fun te => match snd te with RecvMsg m => [m] | _ => [] end) sched.

(** The messages the loop holds: those of the batches handed over, then
    those of the open batch while the loop runs. *)
Definition held (s : Batcher) : list Message :=
  List.concat (map Msgs (outBatches s))
  ++ (if exited s then [] else Msgs (b s)).

Definition negativeLimitConfig : BufferedClientConfig :=
  mkBufferedClientConfig "http://localhost:8088" "admin" "adminSecret" ""
                         "" false "" 0 0 (-5) (ms 50) 10 (Some DefaultLogger).

(** Bounds on batch sizes: [limit] is the configured maximum, or 1 when the
    configured value is below 1. *)
Definition sizes_inv (limit : Z) (s : Batcher) : Prop :=
  Forall (fun x => 1 <= size (Msgs x) <= limit) (outBatches s) /\
  (exited s = false -> size (Msgs (b s)) < limit).

Definition pairConfig : BufferedClientConfig :=
  mkBufferedClientConfig "http://localhost:8088" "admin" "adminSecret" ""
                         "" false "" 0 0 2 (ms 50) 10 (Some DefaultLogger).

(* ================================================================== *)
(** * Properties *)

(** ** Test vectors for the digest and encoding functions *)

Example sha256_constants :
  List.length SHA256.K = 64%nat /\ List.length SHA256.H0 = 8%nat /\
  nth 0 SHA256.K 0 = 0x428a2f98 /\ nth 63 SHA256.K 0 = 0xc67178f2 /\
  nth 0 SHA256.H0 0 = 0x6a09e667 /\ nth 7 SHA256.H0 0 = 0x5be0cd19.
Proof. vm_compute. repeat split; reflexivity. Qed.

Example sha256_abc :
  hex (SHA256.sum (bytes_of_string "abc"))
  = "ba7816bf8f01cfea414140de5dae2223b00361a396177a9cb410ff61f20015ad".
Proof. vm_compute. reflexivity. Qed.

Example sha256_two_blocks :
  hex (SHA256.sum (bytes_of_string
         "abcdbcdecdefdefgefghfghighijhijkijkljklmklmnlmnomnopnopq"))
  = "248d6a61d20638b8e5c026930c3e6039a33ce45964ff2167f6ecedd419db06c1".
Proof. vm_compute. reflexivity. Qed.

Example hmac_sha256_rfc4231_case2 :
  hex (HMAC.sha256 (bytes_of_string "Jefe")
                   (bytes_of_string "what do ya want for nothing?"))
  = "5bdcc146bf60754e6a042426089575c75a003f089d2739839dec58b964ec3843".
Proof. vm_compute. reflexivity. Qed.

Example base64_rfc4648 :
  map Base64.EncodeToString
      (map bytes_of_string ["f"; "fo"; "foo"; "foob"; "fooba"; "foobar"])
  = ["Zg=="; "Zm8="; "Zm9v"; "Zm9vYg=="; "Zm9vYmE="; "Zm9vYmFy"].
Proof. vm_compute. reflexivity. Qed.

Example Itoa_samples :
  map Itoa [0; 7; 42; 1700000000; -15] = ["0"; "7"; "42"; "1700000000"; "-15"].
Proof. vm_compute. reflexivity. Qed.

(* ------------------------------------------------------------------ *)
(** ** NewClient and NewBufferedClient *)

Lemma NewClient_stages (config : Config) :
  NewClient config =
  if (Endpoint config =? "")%string then Err (EString "endpoint is required")
  else NewClient_switches
         (mkConfig (Endpoint config) (AccessKeyID config)
                   (AccessKeySecret config) (ClientId config)
                   (Encoding config) (NoCompression config)
                   (CompressionAlgo config)
                   (orDefaultZ (RetryTimeIntervalInitial config) (100 * Millisecond))
                   (orDefaultZ (RetryTimeIntervalMax config) (5 * Second))
                   (orDefaultLogger (Logger_ config))).
Proof.
  destruct config as [ep kid ks cid enc nc algo ri rm lg].
  unfold NewClient, orDefaultZ, orDefaultLogger.
  cbn [Endpoint Logger_ RetryTimeIntervalInitial RetryTimeIntervalMax].
  destruct (ep =? "")%string; [reflexivity |].
  unfold NewClient_switches.
  destruct lg as [l |]; cbn -[String.eqb dmul Z.mul];
    destruct (ri =? 0); cbn -[String.eqb dmul Z.mul];
    destruct (rm =? 0); reflexivity.
Qed.

Lemma NewClient_switches_conf (config : Config) (c : Client) :
  NewClient_switches config = Ok c ->
  c = mkClient (mkConfig (Endpoint config) (AccessKeyID config)
                         (AccessKeySecret config) (ClientId config)
                         (orDefaultString (Encoding config) "json")
                         (NoCompression config)
                         (orDefaultString (CompressionAlgo config) "gzip")
                         (RetryTimeIntervalInitial config)
                         (RetryTimeIntervalMax config) (Logger_ config)) 0 /\
  In (Encoding config) [""; "json"; "msgpack"] /\
  In (CompressionAlgo config) [""; "gzip"].
Proof.
  destruct config as [ep kid ks cid enc nc algo ri rm lg].
  unfold NewClient_switches, NewClient_compression, orDefaultString.
  cbn [Endpoint AccessKeyID AccessKeySecret ClientId Encoding NoCompression
       CompressionAlgo RetryTimeIntervalInitial RetryTimeIntervalMax Logger_
       set_Encoding set_CompressionAlgo].
  destruct (String.eqb_spec enc "json") as [-> | ?];
    [| destruct (String.eqb_spec enc "msgpack") as [-> | ?];
       [| destruct (String.eqb_spec enc "") as [-> | ?]]];
    cbn [orb String.eqb Ascii.eqb Bool.eqb andb];
    try (intros H; discriminate H);
    (destruct (String.eqb_spec algo "gzip") as [-> | ?];
     [| destruct (String.eqb_spec algo "") as [-> | ?]]);
    cbn [orb String.eqb Ascii.eqb Bool.eqb andb];
    try (intros H; discriminate H);
    intros H; inversion H; subst; simpl; auto 6.
Qed.

(** Every field of the configuration a successful [NewClient] stores. *)
Lemma NewClient_conf (config : Config) (c : Client) :
  NewClient config = Ok c ->
  Endpoint (conf c) = Endpoint config /\
  AccessKeyID (conf c) = AccessKeyID config /\
  AccessKeySecret (conf c) = AccessKeySecret config /\
  ClientId (conf c) = ClientId config /\
  NoCompression (conf c) = NoCompression config /\
  Logger_ (conf c) = orDefaultLogger (Logger_ config) /\
  RetryTimeIntervalInitial (conf c)
    = orDefaultZ (RetryTimeIntervalInitial config) (100 * Millisecond) /\
  RetryTimeIntervalMax (conf c)
    = orDefaultZ (RetryTimeIntervalMax config) (5 * Second) /\
  Encoding (conf c) = orDefaultString (Encoding config) "json" /\
  CompressionAlgo (conf c) = orDefaultString (CompressionAlgo config) "gzip" /\
  reqCount c = 0.
Proof.
  rewrite NewClient_stages.
  destruct (Endpoint config =? "")%string; [discriminate |].
  intros H. apply NewClient_switches_conf in H. destruct H as (-> & _ & _).
  cbn [conf reqCount Endpoint AccessKeyID AccessKeySecret ClientId Encoding
       NoCompression CompressionAlgo RetryTimeIntervalInitial
       RetryTimeIntervalMax Logger_].
  repeat split; reflexivity.
Qed.

(** The validated fields: which configurations [NewClient] accepts. *)
Lemma NewClient_accepts (config : Config) :
  Endpoint config <> "" ->
  In (Encoding config) [""; "json"; "msgpack"] ->
  In (CompressionAlgo config) [""; "gzip"] ->
  exists c, NewClient config = Ok c.
Proof.
  intros Hep Henc Halgo. rewrite NewClient_stages.
  destruct (String.eqb_spec (Endpoint config) ""); [contradiction |].
  unfold NewClient_switches, NewClient_compression.
  cbn [Encoding CompressionAlgo set_Encoding].
  destruct Henc as [<- | [<- | [<- | []]]];
    destruct Halgo as [<- | [<- | []]]; simpl; eexists; reflexivity.
Qed.

(** The converse: a successful [NewClient] has checked these fields. *)
Lemma NewClient_validated (config : Config) (c : Client) :
  NewClient config = Ok c ->
  Endpoint config <> "" /\
  In (Encoding config) [""; "json"; "msgpack"] /\
  In (CompressionAlgo config) [""; "gzip"].
Proof.
  rewrite NewClient_stages.
  destruct (String.eqb_spec (Endpoint config) ""); [discriminate |].
  intros H. apply NewClient_switches_conf in H. destruct H as (_ & He & Ha).
  cbn [Encoding CompressionAlgo] in He, Ha. auto.
Qed.

(** [NewBufferedClient] builds its transport with [NewClient] and fills in
    the three batching options; every other field of the configuration it
    keeps for itself is stored as supplied. *)
Lemma NewBufferedClient_conf (config : BufferedClientConfig)
      (bc : BufferedClient) :
  NewBufferedClient config = Ok bc ->
  NewClient (mkConfig (bEndpoint config) (bAccessKeyID config)
                      (bAccessKeySecret config) (bClientId config)
                      (bEncoding config) (bNoCompression config)
                      (bCompressionAlgo config)
                      (bRetryTimeIntervalInitial config)
                      (bRetryTimeIntervalMax config) (bLogger config))
    = Ok (client bc) /\
  MaxMessagesPerBatch (bconf bc)
    = orDefaultZ (MaxMessagesPerBatch config) 2000 /\
  MaxDurationPerBatch (bconf bc)
    = orDefaultZ (MaxDurationPerBatch config) (50 * Millisecond) /\
  MaxConcurrency (bconf bc) = orDefaultZ (MaxConcurrency config) 10 /\
  bLogger (bconf bc) = bLogger config /\
  bEncoding (bconf bc) = bEncoding config /\
  bCompressionAlgo (bconf bc) = bCompressionAlgo config /\
  bRetryTimeIntervalInitial (bconf bc) = bRetryTimeIntervalInitial config /\
  bRetryTimeIntervalMax (bconf bc) = bRetryTimeIntervalMax config /\
  nextBatchID bc = 0 /\ closed bc = 0.
Proof.
  unfold NewBufferedClient.
  destruct (NewClient _) as [c | e]; [| discriminate].
  intros H; inversion H; subst; clear H; simpl.
  unfold orDefaultZ.
  split; [reflexivity |].
  destruct config as [ep kid ks cid enc nc algo ri rm mm md mc lg]; simpl.
  destruct (Z.eqb_spec mm 0); simpl;
    destruct (Z.eqb_spec md 0); simpl;
    destruct (Z.eqb_spec mc 0); simpl;
    repeat split; reflexivity.
Qed.

(** C10. Every client [NewClient] returns has [conf.Encoding] equal to
    ["json"] or ["msgpack"] and [conf.CompressionAlgo] equal to ["gzip"];
    hence [encoding], called by [Collect] on the client's own
    [conf.Encoding], never takes its "unsupported compression format"
    branch: it returns what one of the two marshalers returns. *)
Theorem NewClient_encoding_supported (config : Config) (c : Client) :
  NewClient config = Ok c ->
  (Encoding (conf c) = "json" \/ Encoding (conf c) = "msgpack") /\
  CompressionAlgo (conf c) = "gzip" /\
  encoding_branch (Encoding (conf c)) <> CaseUnsupported /\
  (forall rt messages,
      encoding rt (Encoding (conf c)) messages = fastjson_Marshal rt messages \/
      encoding rt (Encoding (conf c)) messages = msgpack_Marshal rt messages).
Proof.
  intros H.
  destruct (NewClient_validated _ _ H) as (_ & Venc & Valgo).
  destruct (NewClient_conf _ _ H)
    as (_ & _ & _ & _ & _ & _ & _ & _ & He & Ha & _).
  assert (Henc : Encoding (conf c) = "json" \/ Encoding (conf c) = "msgpack").
  { rewrite He. unfold orDefaultString.
    destruct Venc as [<- | [<- | [<- | []]]]; simpl; auto. }
  assert (Halgo : CompressionAlgo (conf c) = "gzip").
  { rewrite Ha. unfold orDefaultString.
    destruct Valgo as [<- | [<- | []]]; reflexivity. }
  assert (Hrt : forall rt messages,
      encoding rt (Encoding (conf c)) messages = fastjson_Marshal rt messages \/
      encoding rt (Encoding (conf c)) messages = msgpack_Marshal rt messages).
  { intros rt messages. unfold encoding.
    destruct Henc as [-> | ->]; simpl.
    - left. destruct (fastjson_Marshal rt messages); reflexivity.
    - right. destruct (msgpack_Marshal rt messages); reflexivity. }
  split; [exact Henc |].
  split; [exact Halgo |].
  split; [destruct Henc as [-> | ->]; discriminate |].
  exact Hrt.
Qed.

Lemma NewClient_encoding_supported_witness :
  exists c, NewClient exampleConfig = Ok c /\
            Encoding (conf c) = "json" /\ CompressionAlgo (conf c) = "gzip".
Proof.
  eexists. split; [reflexivity |].
  pose proof (NewClient_encoding_supported exampleConfig _ eq_refl) as H.
  split; [reflexivity | exact (proj1 (proj2 H))].
Defined.

(** C9. With no [Logger] supplied, [NewBufferedClient] succeeds and hands
    [DefaultLogger] to the transport client it builds, but the
    configuration the buffered client keeps, and logs through in [Close]
    and in both loops, still holds the nil logger: the first method call on
    it fails. *)
Theorem NewBufferedClient_nil_Logger_kept (config : BufferedClientConfig)
        (bc : BufferedClient) :
  bLogger config = None ->
  NewBufferedClient config = Ok bc ->
  Logger_ (conf (client bc)) = Some DefaultLogger /\
  bLogger (bconf bc) = None /\
  Logger_call (bLogger (bconf bc)) = false.
Proof.
  intros Hnil H.
  destruct (NewBufferedClient_conf _ _ H) as (Hc & _ & _ & _ & Hl & _).
  destruct (NewClient_conf _ _ Hc) as (_ & _ & _ & _ & _ & Hlog & _).
  simpl in Hlog. rewrite Hnil in Hlog, Hl.
  rewrite Hl. repeat split. exact Hlog.
Qed.

Lemma NewBufferedClient_nil_Logger_kept_witness :
  exists bc,
    NewBufferedClient exampleBufferedConfig = Ok bc /\
    MaxMessagesPerBatch (bconf bc) = 2000 /\
    MaxDurationPerBatch (bconf bc) = 50 * Millisecond /\
    MaxConcurrency (bconf bc) = 10 /\
    Logger_ (conf (client bc)) = Some DefaultLogger /\
    bLogger (bconf bc) = None.
Proof.
  eexists. split; [reflexivity |].
  pose proof (NewBufferedClient_nil_Logger_kept exampleBufferedConfig _
                eq_refl eq_refl) as (H1 & H2 & _).
  repeat split; assumption.
Defined.

(* ------------------------------------------------------------------ *)
(** ** The transport: one attempt *)

Lemma doRequestWithContext_error rt c req method api data a :
  snd (doRequestWithContext rt c req method api data a)
  = reply_error rt (reply a).
Proof.
  unfold doRequestWithContext, reply_error.
  destruct (reply a) as [e | e | code status body]; try reflexivity.
  destruct (code =? 200); simpl; [reflexivity |].
  destruct (json_Unmarshal rt body Error_zero) as [rerr [e |]]; reflexivity.
Qed.

Lemma doRequestWithContext_request rt c req method api data a :
  fst (doRequestWithContext rt c req method api data a)
  = signed c req method api data a.
Proof.
  unfold signed, doRequestWithContext.
  destruct (reply a) as [e | e | code status body]; try reflexivity.
  destruct (code =? 200); simpl; [reflexivity |].
  destruct (json_Unmarshal rt body Error_zero) as [rerr [e |]]; reflexivity.
Qed.

Lemma doRequestWithContext_eq rt c req method api data a :
  doRequestWithContext rt c req method api data a
  = (signed c req method api data a, reply_error rt (reply a)).
Proof.
  rewrite <- (doRequestWithContext_request rt).
  rewrite <- (doRequestWithContext_error rt c req method api data a).
  apply surjective_pairing.
Qed.

(* ------------------------------------------------------------------ *)
(** ** The transport: the retry loop *)

Lemma retry_nil rt c data ti tmax n :
  http_NewRequest rt method_ (Endpoint c ++ api_)%string = None ->
  retry rt c data ti tmax n [] = mkRun [] Retrying n.
Proof. intros H. simpl. rewrite H. reflexivity. Qed.

Lemma retry_NewRequest_error rt c data ti tmax n script err :
  http_NewRequest rt method_ (Endpoint c ++ api_)%string = Some err ->
  retry rt c data ti tmax n script = mkRun [] (Returned (Some err)) n.
Proof. intros H. destruct script; simpl; rewrite H; reflexivity. Qed.

Lemma retry_cons rt c data ti tmax n a script :
  http_NewRequest rt method_ (Endpoint c ++ api_)%string = None ->
  retry rt c data ti tmax n (a :: script) =
  let n' := wrap64 (n + 1) in
  let pre := purge n' ++ [Do (signed c (outgoing c data n') method_ api_ data a)] in
  match reply_error rt (reply a) with
  | None => mkRun pre (Returned None) n'
  | Some err =>
      if isCaredError err then
        match wait a with
        | Elapsed =>
            let r := retry rt c data (backoff ti tmax) tmax n' script in
            mkRun (pre ++ After (backoff ti tmax) :: trace r)
                  (outcome r) (reqCount' r)
        | CtxDone ce =>
            mkRun (pre ++ [After (backoff ti tmax)])
                  (Returned (Some (EContext ce))) n'
        end
      else mkRun pre (Returned (Some err)) n'
  end.
Proof.
  intros H. cbn [retry]. rewrite H.
  rewrite doRequestWithContext_eq.
  unfold backoff, purge, outgoing. cbv zeta.
  destruct (reply_error rt (reply a)) as [err |]; [| reflexivity].
  destruct (isCaredError err); [| reflexivity].
  destruct (wait a); reflexivity.
Qed.

Lemma trace_sends_app t1 t2 :
  trace_sends (t1 ++ t2) = trace_sends t1 ++ trace_sends t2.
Proof. apply flat_map_app. Qed.

Lemma trace_waits_app t1 t2 :
  trace_waits (t1 ++ t2) = trace_waits t1 ++ trace_waits t2.
Proof. apply flat_map_app. Qed.

Lemma purge_sends n : trace_sends (purge n) = [].
Proof. unfold purge. destruct (Z.rem n 20 =? 0); reflexivity. Qed.

Lemma purge_waits n : trace_waits (purge n) = [].
Proof. unfold purge. destruct (Z.rem n 20 =? 0); reflexivity. Qed.

(** The send attempts of the loop: the first request, then those of the
    rest of the loop if and only if the attempt is retried. *)
Lemma retry_sends_cons rt c data ti tmax n a script :
  http_NewRequest rt method_ (Endpoint c ++ api_)%string = None ->
  sends (retry rt c data ti tmax n (a :: script)) =
  signed c (outgoing c data (wrap64 (n + 1))) method_ api_ data a
  :: (if retried rt a
      then sends (retry rt c data (backoff ti tmax) tmax (wrap64 (n + 1)) script)
      else []).
Proof.
  intros H. rewrite (retry_cons _ _ _ _ _ _ _ _ H). cbv zeta.
  unfold retried, sends. fold trace_sends.
  destruct (reply_error rt (reply a)) as [err |]; simpl.
  - destruct (isCaredError err); simpl.
    + destruct (wait a); simpl;
        rewrite !trace_sends_app, purge_sends; reflexivity.
    + rewrite trace_sends_app, purge_sends. reflexivity.
  - rewrite trace_sends_app, purge_sends. reflexivity.
Qed.

(** The backoff timers of the loop. *)
Lemma retry_waits_cons rt c data ti tmax n a script :
  http_NewRequest rt method_ (Endpoint c ++ api_)%string = None ->
  waits (retry rt c data ti tmax n (a :: script)) =
  match reply_error rt (reply a) with
  | Some err =>
      if isCaredError err then
        backoff ti tmax
        :: match wait a with
           | Elapsed =>
               waits (retry rt c data (backoff ti tmax) tmax (wrap64 (n + 1)) script)
           | CtxDone _ => []
           end
      else []
  | None => []
  end.
Proof.
  intros H. rewrite (retry_cons _ _ _ _ _ _ _ _ H). cbv zeta.
  unfold waits. fold trace_waits.
  destruct (reply_error rt (reply a)) as [err |]; simpl.
  - destruct (isCaredError err); simpl.
    + destruct (wait a); simpl;
        rewrite !trace_waits_app, purge_waits; reflexivity.
    + rewrite trace_waits_app, purge_waits. reflexivity.
  - rewrite trace_waits_app, purge_waits. reflexivity.
Qed.

Lemma Collect_eq rt c messages script :
  Collect rt c messages script =
  match Collect_body rt (conf c) messages with
  | Err err => mkRun [] (Returned (Some err)) (reqCount c)
  | Ok data =>
      retry rt (conf c) data (RetryTimeIntervalInitial (conf c))
            (RetryTimeIntervalMax (conf c)) (reqCount c) script
  end.
Proof.
  unfold Collect, Collect_body.
  destruct (encoding rt (Encoding (conf c)) messages); reflexivity.
Qed.

(* ------------------------------------------------------------------ *)
(** ** Backoff intervals *)

Lemma wrap64_id z : in_int64 z -> wrap64 z = z.
Proof.
  unfold in_int64, int64_min, int64_max, wrap64. intros H.
  rewrite Z.mod_small; lia.
Qed.

(** The interval never exceeds the configured maximum, whatever the
    inputs. *)
Lemma backoff_le_max ti tmax : backoff ti tmax <= tmax.
Proof.
  unfold backoff. destruct (Z.geb_spec (dmul ti 2) tmax); lia.
Qed.

Lemma backoff_min ti tmax :
  0 <= ti < 2 ^ 62 -> backoff ti tmax = Z.min (ti * 2) tmax.
Proof.
  intros H. unfold backoff, dmul.
  rewrite wrap64_id by (unfold in_int64, int64_min, int64_max; lia).
  destruct (Z.geb_spec (ti * 2) tmax); lia.
Qed.

Lemma min_double x tmax k :
  0 <= x -> 0 <= tmax -> 0 <= k ->
  Z.min (Z.min (x * 2) tmax * 2 ^ k) tmax = Z.min (x * 2 ^ (k + 1)) tmax.
Proof.
  intros Hx Hm Hk.
  rewrite Z.pow_add_r by lia. change (2 ^ 1) with 2.
  assert (Hp : 1 <= 2 ^ k) by (apply (Z.pow_le_mono_r 2 0 k); lia).
  destruct (Z.min_spec (x * 2) tmax) as [[H1 ->] | [H1 ->]].
  - f_equal. ring.
  - rewrite Z.min_r by nia. rewrite Z.min_r by nia. reflexivity.
Qed.

(** While every attempt is retried, the [k]-th timer of the loop entered
    with interval [ti] runs for [min (ti * 2^(k+1), tmax)]. *)
Lemma retry_waits_closed_form rt c data tmax script :
  http_NewRequest rt method_ (Endpoint c ++ api_)%string = None ->
  Forall (fun a => retried rt a = true) script ->
  0 <= tmax < 2 ^ 62 ->
  forall ti n,
    0 <= ti < 2 ^ 62 ->
    waits (retry rt c data ti tmax n script)
    = map (fun k => Z.min (ti * 2 ^ (Z.of_nat k + 1)) tmax)
          (seq 0 (List.length script)).
Proof.
  intros HN Hall Hmax.
  induction Hall as [| a script Ha _ IH]; intros ti n Hti.
  - rewrite (retry_nil _ _ _ _ _ _ HN). reflexivity.
  - rewrite (retry_waits_cons _ _ _ _ _ _ _ _ HN).
    unfold retried in Ha.
    destruct (reply_error rt (reply a)) as [err |]; [| discriminate].
    apply andb_prop in Ha. destruct Ha as [Hc Hw]. rewrite Hc.
    destruct (wait a); [| discriminate].
    assert (Hb : 0 <= backoff ti tmax < 2 ^ 62)
      by (rewrite backoff_min by lia; lia).
    rewrite (IH _ _ Hb).
    cbn [List.length seq map]. f_equal.
    + rewrite backoff_min by lia. change (2 ^ (Z.of_nat 0 + 1)) with 2.
      reflexivity.
    + rewrite <- seq_shift, map_map.
      apply map_ext. intros k.
      rewrite backoff_min by lia.
      rewrite min_double by lia. f_equal. f_equal. f_equal. lia.
Qed.

(** C1. Under a run of retried attempts the [k]-th backoff wait of
    [Collect] is [min (RetryTimeIntervalInitial * 2^(k+1), RetryTimeIntervalMax)]:
    the interval is doubled before the first wait, so the first wait is
    twice the configured initial interval (or the maximum) and the value
    [RetryTimeIntervalInitial] itself is never waited for. *)
Theorem Collect_backoff_waits rt c messages data script :
  Collect_body rt (conf c) messages = Ok data ->
  http_NewRequest rt method_ (Endpoint (conf c) ++ api_)%string = None ->
  Forall (fun a => retried rt a = true) script ->
  0 < RetryTimeIntervalInitial (conf c) < 2 ^ 62 ->
  0 < RetryTimeIntervalMax (conf c) < 2 ^ 62 ->
  waits (Collect rt c messages script)
  = map (fun k => Z.min (RetryTimeIntervalInitial (conf c) * 2 ^ (Z.of_nat k + 1))
                        (RetryTimeIntervalMax (conf c)))
        (seq 0 (List.length script)).
Proof.
  intros Hb HN Hall Hi Hm.
  rewrite Collect_eq, Hb.
  apply retry_waits_closed_form; auto; lia.
Qed.

Example defaultClient_is_NewClient : NewClient exampleConfig = Ok defaultClient.
Proof. reflexivity. Qed.

(** One 503 under the default configuration (initial 100ms, max 5s): the
    only wait lasts 200ms. *)
Lemma Collect_backoff_waits_witness :
  waits (Collect exampleRuntime defaultClient exampleMessages [unavailable])
  = [200 * Millisecond] /\
  200 * Millisecond <> RetryTimeIntervalInitial (conf defaultClient).
Proof.
  split; [| discriminate].
  rewrite (Collect_backoff_waits exampleRuntime defaultClient exampleMessages
             (x1f :: bytes_of_string "{batchId:b-1-0}" ++ [x00]) [unavailable]).
  - reflexivity.
  - reflexivity.
  - reflexivity.
  - repeat constructor.
  - simpl. unfold Millisecond, Microsecond, Nanosecond. lia.
  - simpl. unfold Second, Millisecond, Microsecond, Nanosecond. lia.
Defined.

(* ------------------------------------------------------------------ *)
(** ** Retry classification *)

(** [isCaredError] accepts an error exactly when its chain holds an
    [Error] with one of the five status codes, or holds no [Error] and
    ends in [ETIMEDOUT] or [ECONNREFUSED]. *)
Lemma isCaredError_spec (err : error) :
  isCaredError err = true <->
  (exists e, errors_As_Error err = Some e /\ retryable_status (StatusCode e)) \/
  (errors_As_Error err = None /\
   (errors_Is_Errno err ETIMEDOUT = true \/
    errors_Is_Errno err ECONNREFUSED = true)).
Proof.
  unfold isCaredError, retryable_status, StatusTooManyRequests,
    StatusRequestTimeout, StatusBadGateway, StatusServiceUnavailable,
    StatusGatewayTimeout.
  destruct (errors_As_Error err) as [e |].
  - split.
    + intros H. left. exists e. split; [reflexivity |].
      destruct (Z.eqb_spec (StatusCode e) 429); [lia |].
      destruct (Z.eqb_spec (StatusCode e) 408); [lia |].
      destruct (Z.eqb_spec (StatusCode e) 502); [lia |].
      destruct (Z.eqb_spec (StatusCode e) 503); [lia |].
      destruct (Z.eqb_spec (StatusCode e) 504); [lia |].
      discriminate H.
    + intros [(e' & He & Hs) | (He & _)]; [| discriminate].
      inversion He; subst e'.
      destruct Hs as [-> | [-> | [-> | [-> | ->]]]]; reflexivity.
  - split.
    + intros H. right. split; [reflexivity |].
      destruct (errors_Is_Errno err ETIMEDOUT); [left; reflexivity |].
      destruct (errors_Is_Errno err ECONNREFUSED); [right; reflexivity |].
      discriminate H.
    + intros [(e' & He & _) | (_ & [-> | ->])]; [discriminate | reflexivity |].
      rewrite orb_true_r. reflexivity.
Qed.

Lemma isCaredError_context ce : isCaredError (EContext ce) = false.
Proof. reflexivity. Qed.

Lemma retried_spec rt a :
  retried rt a = true <->
  exists err, reply_error rt (reply a) = Some err /\
              isCaredError err = true /\ wait a = Elapsed.
Proof.
  unfold retried. split.
  - destruct (reply_error rt (reply a)) as [err |]; [| discriminate].
    intros H. apply andb_prop in H. destruct H as [Hc Hw].
    exists err. repeat split; auto. destruct (wait a); [reflexivity | discriminate].
  - intros (err & -> & -> & ->). reflexivity.
Qed.

Lemma Collect_serialization_error_no_attempt :
  ~ (forall rt c messages script err,
        encoding rt (Encoding (conf c)) messages = Err err ->
        outcome (Collect rt c messages script) = Returned (Some err) /\
        List.length (sends (Collect rt c messages script)) = 1%nat).
Proof.
  intros H.
  destruct (H brokenEncoder defaultClient exampleMessages [accepted]
              (EString "json: unsupported value") eq_refl) as [_ H1].
  discriminate H1.
Qed.

(** C3. The retry policy of [Collect].
    - An error of serialization or compression is returned before any
      request is issued: no send attempt at all.
    - At every pass through the loop a further send attempt follows the
      current one if and only if its error is cared for by [isCaredError]
      and the backoff wait ends by its timer, not by the context.
    - An attempt whose error is not cared for ends the call with that
      error, and is the last attempt; when it is the first attempt,
      [Collect] has sent exactly once.
    - The errors cared for are those carrying an HTTP status 429, 408,
      502, 503 or 504, and those without an HTTP status whose chain ends
      in [ETIMEDOUT] or [ECONNREFUSED]. *)
Theorem Collect_retry_policy rt c messages :
  (forall err script,
      Collect_body rt (conf c) messages = Err err ->
      outcome (Collect rt c messages script) = Returned (Some err) /\
      sends (Collect rt c messages script) = []) /\
  (forall data ti tmax n a a' script,
      http_NewRequest rt method_ (Endpoint (conf c) ++ api_)%string = None ->
      let r := retry rt (conf c) data ti tmax n (a :: a' :: script) in
      ((2 <= List.length (sends r))%nat <->
       exists err, reply_error rt (reply a) = Some err /\
                   isCaredError err = true /\ wait a = Elapsed) /\
      (forall err,
          reply_error rt (reply a) = Some err -> isCaredError err = false ->
          outcome r = Returned (Some err) /\ List.length (sends r) = 1%nat)) /\
  (forall data a script err,
      Collect_body rt (conf c) messages = Ok data ->
      http_NewRequest rt method_ (Endpoint (conf c) ++ api_)%string = None ->
      reply_error rt (reply a) = Some err -> isCaredError err = false ->
      outcome (Collect rt c messages (a :: script)) = Returned (Some err) /\
      List.length (sends (Collect rt c messages (a :: script))) = 1%nat) /\
  (forall err,
      isCaredError err = true <->
      (exists e, errors_As_Error err = Some e /\
                 retryable_status (StatusCode e)) \/
      (errors_As_Error err = None /\
       (errors_Is_Errno err ETIMEDOUT = true \/
        errors_Is_Errno err ECONNREFUSED = true))).
Proof.
  assert (Hterm : forall data ti tmax n a script err,
             http_NewRequest rt method_ (Endpoint (conf c) ++ api_)%string = None ->
             reply_error rt (reply a) = Some err -> isCaredError err = false ->
             let r := retry rt (conf c) data ti tmax n (a :: script) in
             outcome r = Returned (Some err) /\ List.length (sends r) = 1%nat).
  { intros data ti tmax n a script err HN He Hc r. subst r. split.
    - rewrite (retry_cons _ _ _ _ _ _ _ _ HN). cbv zeta.
      rewrite He, Hc. reflexivity.
    - rewrite (retry_sends_cons _ _ _ _ _ _ _ _ HN).
      unfold retried. rewrite He, Hc. reflexivity. }
  split; [| split; [| split]].
  4: exact isCaredError_spec.
  - intros err script Hb. rewrite Collect_eq, Hb. split; reflexivity.
  - intros data ti tmax n a a' script HN r. subst r. split.
    + rewrite (retry_sends_cons _ _ _ _ _ _ _ _ HN).
      rewrite <- retried_spec.
      destruct (retried rt a).
      * rewrite (retry_sends_cons _ _ _ _ _ _ _ _ HN). simpl.
        split; [reflexivity | lia].
      * simpl. split; [lia | discriminate].
    + intros err He Hc. apply Hterm; assumption.
  - intros data a script err Hb HN He Hc.
    rewrite Collect_eq, Hb. apply Hterm; assumption.
Qed.

(** A 400 on the first attempt: one request, the error, no wait; a 503
    followed by a 200: two requests and success. *)
Lemma Collect_retry_policy_witness :
  (exists e,
      outcome (Collect exampleRuntime defaultClient exampleMessages
                       [rejected; accepted]) = Returned (Some (EError e)) /\
      StatusCode e = 400) /\
  List.length (sends (Collect exampleRuntime defaultClient exampleMessages
                              [rejected; accepted])) = 1%nat /\
  outcome (Collect exampleRuntime defaultClient exampleMessages
                   [unavailable; accepted]) = Returned None /\
  List.length (sends (Collect exampleRuntime defaultClient exampleMessages
                              [unavailable; accepted])) = 2%nat.
Proof.
  destruct (Collect_retry_policy exampleRuntime defaultClient exampleMessages)
    as (_ & _ & H & _).
  destruct (H (x1f :: bytes_of_string "{batchId:b-1-0}" ++ [x00]) rejected
              [accepted]
              (EError (mkError 400 "400 Bad Request" "rejected" []))
              eq_refl eq_refl eq_refl eq_refl) as [H1 H2].
  split; [eexists; split; [exact H1 | reflexivity] |].
  split; [exact H2 |].
  split; reflexivity.
Defined.

(* ------------------------------------------------------------------ *)
(** ** Cancellation during a backoff wait *)

Lemma retry_prefix rt c data tmax pre :
  http_NewRequest rt method_ (Endpoint c ++ api_)%string = None ->
  Forall (fun a => retried rt a = true) pre ->
  forall ti n script,
  exists ti' n' tr,
    let r := retry rt c data ti tmax n (pre ++ script) in
    let r' := retry rt c data ti' tmax n' script in
    trace r = tr ++ trace r' /\
    outcome r = outcome r' /\
    reqCount' r = reqCount' r' /\
    List.length (trace_sends tr) = List.length pre /\
    (forall script2,
        trace (retry rt c data ti tmax n (pre ++ script2))
        = tr ++ trace (retry rt c data ti' tmax n' script2)).
Proof.
  intros HN Hall.
  induction Hall as [| a pre Ha _ IH]; intros ti n script.
  - exists ti, n, []. cbv zeta. repeat split; reflexivity.
  - destruct (IH (backoff ti tmax) (wrap64 (n + 1)) script)
      as (ti' & n' & tr & H1 & H2 & H3 & H4 & H5).
    cbv zeta in H1, H2, H3.
    apply retried_spec in Ha. destruct Ha as (err & He & Hc & Hw).
    exists ti', n'.
    exists ((purge (wrap64 (n + 1))
             ++ [Do (signed c (outgoing c data (wrap64 (n + 1))) method_ api_ data a)])
            ++ After (backoff ti tmax) :: tr).
    cbv zeta.
    assert (Hstep : forall s2,
               retry rt c data ti tmax n ((a :: pre) ++ s2)
               = let r := retry rt c data (backoff ti tmax) tmax (wrap64 (n + 1))
                                (pre ++ s2) in
                 mkRun ((purge (wrap64 (n + 1))
                         ++ [Do (signed c (outgoing c data (wrap64 (n + 1)))
                                        method_ api_ data a)])
                        ++ After (backoff ti tmax) :: trace r)
                       (outcome r) (reqCount' r)).
    { intros s2. rewrite <- app_comm_cons.
      rewrite (retry_cons _ _ _ _ _ _ _ _ HN). cbv zeta.
      rewrite He, Hc, Hw. reflexivity. }
    rewrite Hstep. cbv zeta. cbn [trace outcome reqCount'].
    repeat split.
    + rewrite H1. rewrite <- !app_assoc. reflexivity.
    + exact H2.
    + exact H3.
    + rewrite !trace_sends_app, purge_sends.
      unfold trace_sends in H4 |- *. simpl. rewrite H4. reflexivity.
    + intros s2. rewrite Hstep. cbv zeta. cbn [trace].
      rewrite H5. rewrite <- !app_assoc. reflexivity.
Qed.

(** C8. When the context is done while [Collect] waits out a backoff
    interval, [Collect] returns [ctx.Err()], which is not the transport
    error that started the wait, and issues no further request: the
    requests sent are those up to the failed attempt, whatever the network
    would have answered afterwards. *)
Theorem Collect_cancelled_during_backoff rt c messages data pre a err ce rest :
  Collect_body rt (conf c) messages = Ok data ->
  http_NewRequest rt method_ (Endpoint (conf c) ++ api_)%string = None ->
  Forall (fun x => retried rt x = true) pre ->
  reply_error rt (reply a) = Some err ->
  isCaredError err = true ->
  wait a = CtxDone ce ->
  let r := Collect rt c messages (pre ++ a :: rest) in
  outcome r = Returned (Some (EContext ce)) /\
  EContext ce <> err /\
  List.length (sends r) = S (List.length pre) /\
  trace r = trace (Collect rt c messages (pre ++ [a])).
Proof.
  intros Hb HN Hall He Hc Hw r. subst r.
  rewrite !Collect_eq, Hb.
  destruct (retry_prefix rt (conf c) data (RetryTimeIntervalMax (conf c)) pre
              HN Hall (RetryTimeIntervalInitial (conf c)) (reqCount c)
              (a :: rest))
    as (ti' & n' & tr & H1 & H2 & _ & H4 & H5).
  cbv zeta in H1, H2.
  assert (Hlast : forall s2,
             retry rt (conf c) data ti' (RetryTimeIntervalMax (conf c)) n' (a :: s2)
             = mkRun ((purge (wrap64 (n' + 1))
                       ++ [Do (signed (conf c)
                                      (outgoing (conf c) data (wrap64 (n' + 1)))
                                      method_ api_ data a)])
                      ++ [After (backoff ti' (RetryTimeIntervalMax (conf c)))])
                     (Returned (Some (EContext ce))) (wrap64 (n' + 1))).
  { intros s2. rewrite (retry_cons _ _ _ _ _ _ _ _ HN). cbv zeta.
    rewrite He, Hc, Hw. reflexivity. }
  repeat split.
  - rewrite H2, Hlast. reflexivity.
  - intros E. subst err. rewrite isCaredError_context in Hc. discriminate.
  - unfold sends. fold trace_sends. rewrite H1, Hlast. cbn [trace].
    rewrite !trace_sends_app, purge_sends, !length_app, H4. cbn. lia.
  - rewrite H1, (H5 [a]), !Hlast. reflexivity.
Qed.

Lemma Collect_cancelled_during_backoff_witness :
  outcome (Collect exampleRuntime defaultClient exampleMessages
                   [unavailable; unavailable_then_cancelled; accepted])
  = Returned (Some (EContext DeadlineExceeded)) /\
  List.length (sends (Collect exampleRuntime defaultClient exampleMessages
                   [unavailable; unavailable_then_cancelled; accepted]))
  = 2%nat.
Proof.
  destruct (Collect_cancelled_during_backoff
              exampleRuntime defaultClient exampleMessages
              (x1f :: bytes_of_string "{batchId:b-1-0}" ++ [x00])
              [unavailable] unavailable_then_cancelled
              (EError (mkError 503 "503 Service Unavailable" "busy" []))
              DeadlineExceeded [accepted])
    as (H1 & _ & H3 & _).
  - reflexivity.
  - reflexivity.
  - repeat constructor.
  - reflexivity.
  - reflexivity.
  - reflexivity.
  - split; assumption.
Defined.

(* ------------------------------------------------------------------ *)
(** ** Response classification *)

(** A 201 reply is in the 2xx range and is reported as an error. *)
Lemma doRequestWithContext_201_is_error :
  ~ (forall rt c req method api data a code status body,
        reply a = Response code status body ->
        200 <= code <= 299 ->
        snd (doRequestWithContext rt c req method api data a) = None).
Proof.
  intros H.
  specialize (H exampleRuntime exampleConfig
                (outgoing exampleConfig [] 1) method_ api_ [] created
                201 "201 Created" [] eq_refl).
  assert (Hr : 200 <= 201 <= 299) by lia.
  specialize (H Hr). discriminate H.
Qed.

(** C5. A reply with status 200 makes the attempt succeed.  Any other
    status, 2xx or not, makes it return an [Error] carrying the reply's
    status code and status text; its [Message] and [Errors] are those
    decoded from the body when [json.Unmarshal] accepts the body, and its
    [Message] is the raw body text when it does not. *)
Theorem doRequestWithContext_status rt c req method api data a code status body :
  reply a = Response code status body ->
  (code = 200 ->
   snd (doRequestWithContext rt c req method api data a) = None) /\
  (code <> 200 ->
   exists rerr,
     snd (doRequestWithContext rt c req method api data a) = Some (EError rerr) /\
     StatusCode rerr = code /\
     Status rerr = status /\
     (forall parsed,
         json_Unmarshal rt body Error_zero = (parsed, None) ->
         Message_ rerr = Message_ parsed /\ Errors rerr = Errors parsed) /\
     (forall partial e,
         json_Unmarshal rt body Error_zero = (partial, Some e) ->
         Message_ rerr = string_of_bytes body)).
Proof.
  intros Hr. rewrite doRequestWithContext_error, Hr. unfold reply_error.
  split.
  - intros ->. reflexivity.
  - intros Hc. destruct (Z.eqb_spec code 200) as [E | _]; [contradiction |].
    eexists. split; [reflexivity |]. cbn [StatusCode Status Message_ Errors].
    repeat split.
    + rewrite H. reflexivity.
    + rewrite H. reflexivity.
    + intros partial e H. rewrite H. reflexivity.
Qed.

Lemma doRequestWithContext_status_witness :
  snd (doRequestWithContext exampleRuntime exampleConfig
         (outgoing exampleConfig [] 1) method_ api_ [] accepted) = None /\
  snd (doRequestWithContext exampleRuntime exampleConfig
         (outgoing exampleConfig [] 1) method_ api_ [] unavailable)
  = Some (EError (mkError 503 "503 Service Unavailable" "busy" [])) /\
  snd (doRequestWithContext exampleRuntime exampleConfig
         (outgoing exampleConfig [] 1) method_ api_ [] rejected)
  = Some (EError (mkError 400 "400 Bad Request" "rejected" [])).
Proof.
  split.
  - exact (proj1 (doRequestWithContext_status exampleRuntime exampleConfig
                    (outgoing exampleConfig [] 1) method_ api_ [] accepted
                    200 "200 OK" [] eq_refl) eq_refl).
  - split; reflexivity.
Defined.

(* ------------------------------------------------------------------ *)
(** ** Request signature *)

Lemma calculateSignature_eq method url accessKeyId timestamp nonce secret body :
  calculateSignature method url accessKeyId timestamp nonce secret body
  = HMAC.sha256 (bytes_of_string secret)
      (bytes_of_string method ++ bytes_of_string url
       ++ bytes_of_string accessKeyId ++ bytes_of_string nonce
       ++ bytes_of_string timestamp ++ body).
Proof.
  unfold calculateSignature, HMAC.Sum, HMAC.Write, HMAC.New.
  cbn [HMAC.key HMAC.written app].
  rewrite <- !app_assoc. reflexivity.
Qed.

(** What a request of the loop looks like once signed. *)
Lemma signed_outgoing_headers c data n a :
  let q := signed c (outgoing c data n) method_ api_ data a in
  Method q = "POST" /\
  URL q = (Endpoint c ++ "/v1/collect")%string /\
  Body q = data /\
  Header_Get "X-AccessKeyId" (Header q) = Some (AccessKeyID c) /\
  Header_Get "X-Nonce" (Header q) = Some (Itoa (rand_int a)) /\
  Header_Get "X-Timestamp" (Header q) = Some (Itoa (now_unix a)) /\
  Header_Get "X-Signature" (Header q)
  = Some (signature_of (AccessKeySecret c) "POST" "/v1/collect"
                       (AccessKeyID c) (Itoa (rand_int a))
                       (Itoa (now_unix a)) data).
Proof.
  unfold signed, outgoing, signature_of. cbv zeta.
  rewrite calculateSignature_eq.
  destruct (Z.rem n 20 =? 0); destruct (NoCompression c);
    repeat split; reflexivity.
Qed.

Lemma retry_sends_shape rt c data tmax script :
  forall ti n q,
    In q (sends (retry rt c data ti tmax n script)) ->
    exists n' a, In a script /\
                 q = signed c (outgoing c data n') method_ api_ data a.
Proof.
  induction script as [| a script IH]; intros ti n q Hin.
  - simpl in Hin.
    destruct (http_NewRequest rt method_ (Endpoint c ++ api_)%string);
      simpl in Hin; contradiction.
  - destruct (http_NewRequest rt method_ (Endpoint c ++ api_)%string)
      as [e |] eqn:HN.
    + rewrite (retry_NewRequest_error _ _ _ _ _ _ _ _ HN) in Hin.
      simpl in Hin. contradiction.
    + rewrite (retry_sends_cons _ _ _ _ _ _ _ _ HN) in Hin.
      destruct Hin as [<- | Hin].
      * exists (wrap64 (n + 1)), a. split; [left |]; reflexivity.
      * destruct (retried rt a); [| contradiction].
        destruct (IH _ _ _ Hin) as (n' & a' & Ha' & Hq).
        exists n', a'. split; [right |]; assumption.
Qed.

(** C6. Every request sent by [Collect] is a POST to the endpoint's
    [/v1/collect] whose [X-Signature] header is the base64 text of the
    HMAC-SHA256, keyed by the access key secret, of the method, the path
    [/v1/collect], the access key id, the nonce and the timestamp it
    carries in its own headers, and its body bytes, in that order.  The
    header is thus a function of these seven values: two requests, of any
    two clients, that agree on them carry the same signature. *)
Theorem X_Signature_spec :
  (forall rt c messages script q,
      In q (sends (Collect rt c messages script)) ->
      exists nonce timestamp,
        Method q = "POST" /\
        URL q = (Endpoint (conf c) ++ "/v1/collect")%string /\
        Header_Get "X-AccessKeyId" (Header q) = Some (AccessKeyID (conf c)) /\
        Header_Get "X-Nonce" (Header q) = Some nonce /\
        Header_Get "X-Timestamp" (Header q) = Some timestamp /\
        Header_Get "X-Signature" (Header q)
        = Some (signature_of (AccessKeySecret (conf c)) (Method q)
                             "/v1/collect" (AccessKeyID (conf c))
                             nonce timestamp (Body q))) /\
  (forall rt1 c1 messages1 script1 q1 rt2 c2 messages2 script2 q2,
      In q1 (sends (Collect rt1 c1 messages1 script1)) ->
      In q2 (sends (Collect rt2 c2 messages2 script2)) ->
      AccessKeySecret (conf c1) = AccessKeySecret (conf c2) ->
      Header_Get "X-AccessKeyId" (Header q1)
      = Header_Get "X-AccessKeyId" (Header q2) ->
      Header_Get "X-Nonce" (Header q1) = Header_Get "X-Nonce" (Header q2) ->
      Header_Get "X-Timestamp" (Header q1)
      = Header_Get "X-Timestamp" (Header q2) ->
      Body q1 = Body q2 ->
      Header_Get "X-Signature" (Header q1)
      = Header_Get "X-Signature" (Header q2)).
Proof.
  assert (Hshape : forall rt c messages script q,
             In q (sends (Collect rt c messages script)) ->
             exists data n a,
               q = signed (conf c) (outgoing (conf c) data n) method_ api_ data a).
  { intros rt c messages script q Hin. rewrite Collect_eq in Hin.
    destruct (Collect_body rt (conf c) messages) as [data | e];
      [| simpl in Hin; contradiction].
    destruct (retry_sends_shape _ _ _ _ _ _ _ _ Hin) as (n' & a & _ & Hq).
    exists data, n', a. exact Hq. }
  split.
  - intros rt c messages script q Hin.
    destruct (Hshape _ _ _ _ _ Hin) as (data & n & a & ->).
    destruct (signed_outgoing_headers (conf c) data n a)
      as (Hm & Hu & Hb & Hk & Hn & Ht & Hs).
    exists (Itoa (rand_int a)), (Itoa (now_unix a)).
    rewrite Hm, Hb. repeat split; assumption.
  - intros rt1 c1 m1 s1 q1 rt2 c2 m2 s2 q2 Hin1 Hin2 Hsec Hk Hn Ht Hb.
    destruct (Hshape _ _ _ _ _ Hin1) as (d1 & n1 & a1 & ->).
    destruct (Hshape _ _ _ _ _ Hin2) as (d2 & n2 & a2 & ->).
    destruct (signed_outgoing_headers (conf c1) d1 n1 a1)
      as (_ & _ & Hb1 & Hk1 & Hn1 & Ht1 & Hs1).
    destruct (signed_outgoing_headers (conf c2) d2 n2 a2)
      as (_ & _ & Hb2 & Hk2 & Hn2 & Ht2 & Hs2).
    cbv zeta in *.
    rewrite Hs1, Hs2.
    rewrite Hk1, Hk2 in Hk. rewrite Hn1, Hn2 in Hn. rewrite Ht1, Ht2 in Ht.
    rewrite Hb1, Hb2 in Hb.
    inversion Hk. inversion Hn. inversion Ht. subst d2.
    rewrite Hsec. congruence.
Qed.

(** The header of the one request of a successful [Collect], checked
    against an independent HMAC-SHA256 implementation. *)
Example X_Signature_sample :
  map (fun q => Header_Get "X-Signature" (Header q))
      (sends (Collect exampleRuntime defaultClient exampleMessages
                      [mkAttempt 1700000000 42 (Response 200 "200 OK" []) Elapsed]))
  = [Some "ZEtDkmq7WM8vR7Hr0XQZzNMg50K+78fA2KhxKQsJrS8="].
Proof. vm_compute. reflexivity. Qed.

Example hmac_sha256_long_key :
  hex (HMAC.sha256 (repeat "k"%byte 100) (bytes_of_string "hello"))
  = "3fd578d761a4f6703009e92d2e8a0aea22ab9ab50d4ad250dc95d8c369dec3f5".
Proof. vm_compute. reflexivity. Qed.

(* ------------------------------------------------------------------ *)
(** ** The batcher: size-triggered sealing *)

Lemma batchingLoop_run_app conf s sched1 sched2 :
  batchingLoop_run conf s (sched1 ++ sched2)
  = match batchingLoop_run conf s sched1 with
    | Some s' => batchingLoop_run conf s' sched2
    | None => None
    end.
Proof.
  revert s. induction sched1 as [| [now ev] sched1 IH]; intros s; simpl.
  - reflexivity.
  - destruct (batchingLoop_step conf s now ev); [apply IH | reflexivity].
Qed.





(* ------------------------------------------------------------------ *)
(** ** Batch identifiers *)


Lemma list_ascii_of_string_app s1 s2 :
  list_ascii_of_string (s1 ++ s2)%string
  = list_ascii_of_string s1 ++ list_ascii_of_string s2.
Proof. induction s1 as [| ch s1 IH]; simpl; [| rewrite IH]; reflexivity. Qed.

Lemma list_ascii_of_string_inj s1 s2 :
  list_ascii_of_string s1 = list_ascii_of_string s2 -> s1 = s2.
Proof.
  intros H. rewrite <- (string_of_list_ascii_of_string s1),
              <- (string_of_list_ascii_of_string s2), H. reflexivity.
Qed.

(** Decimal digits only: no sign in the print of an unsigned number. *)
Lemma string_of_uint_no_minus d :
  ~ In "-"%char (list_ascii_of_string (NilEmpty.string_of_uint d)).
Proof.
  induction d; simpl; intros H;
    [contradiction | destruct H as [H | H]; [discriminate H | auto] ..].
Qed.

Lemma Itoa_nonneg_no_minus z :
  0 <= z -> ~ In "-"%char (list_ascii_of_string (Itoa z)).
Proof.
  intros Hz. unfold Itoa. destruct z as [| p | p]; [| | lia].
  - simpl. intros [H | []]. discriminate H.
  - cbn [Z.to_int NilZero.string_of_int]. unfold NilZero.string_of_uint.
    destruct (Pos.to_uint p) eqn:E;
      try (rewrite <- E; apply string_of_uint_no_minus).
    exfalso. exact (DecimalPos.Unsigned.to_uint_nonnil p E).
Qed.

Lemma Itoa_inj a c : Itoa a = Itoa c -> a = c.
Proof.
  unfold Itoa. intros H.
  assert (Hnn : forall z, Z.to_int z <> Decimal.Pos Decimal.Nil /\
                          Z.to_int z <> Decimal.Neg Decimal.Nil).
  { intros [| p | p]; simpl; split; try discriminate;
      intros E; inversion E as [E'];
      exact (DecimalPos.Unsigned.to_uint_nonnil p E'). }
  apply DecimalZ.to_int_inj.
  assert (E : Some (Z.to_int a) = Some (Z.to_int c)).
  { rewrite <- (NilZero.isi (Z.to_int a)) by apply Hnn.
    rewrite <- (NilZero.isi (Z.to_int c)) by apply Hnn.
    rewrite H. reflexivity. }
  inversion E. reflexivity.
Qed.

Lemma split_at_first {A : Type} (x : A) (l1 l2 r1 r2 : list A) :
  l1 ++ x :: r1 = l2 ++ x :: r2 ->
  ~ In x l1 -> ~ In x l2 -> l1 = l2.
Proof.
  revert l2. induction l1 as [| y l1 IH]; intros [| z l2] H H1 H2.
  - reflexivity.
  - simpl in H. inversion H; subst. exfalso. apply H2. left. reflexivity.
  - simpl in H. inversion H; subst. exfalso. apply H1. left. reflexivity.
  - simpl in H. inversion H; subst. f_equal.
    apply IH; [assumption | |]; intros Hin.
    + apply H1. right. exact Hin.
    + apply H2. right. exact Hin.
Qed.

(** The counter can be read back from an identifier: identifiers with
    different non-negative counters differ, whatever the timestamps. *)
Lemma batchID_counter_inj t1 c1 t2 c2 :
  0 <= c1 -> 0 <= c2 -> batchID t1 c1 = batchID t2 c2 -> c1 = c2.
Proof.
  intros H1 H2 H. unfold batchID in H.
  apply (f_equal list_ascii_of_string) in H.
  rewrite !list_ascii_of_string_app in H.
  apply (f_equal (@rev ascii)) in H.
  rewrite !rev_app_distr in H.
  change (list_ascii_of_string "-") with ["-"%char] in H.
  cbn [rev app] in H. rewrite <- !app_assoc in H. cbn [app] in H.
  apply split_at_first in H.
  - apply Itoa_inj, list_ascii_of_string_inj.
    rewrite <- (rev_involutive (list_ascii_of_string (Itoa c1))), H.
    apply rev_involutive.
  - rewrite <- in_rev. apply Itoa_nonneg_no_minus. exact H1.
  - rewrite <- in_rev. apply Itoa_nonneg_no_minus. exact H2.
Qed.

Example batchID_sample : batchID 1700000000123 7 = "b-1700000000123-7".
Proof. vm_compute. reflexivity. Qed.







(* ------------------------------------------------------------------ *)
(** ** The batcher: batch sizes and identifiers *)




Example batchIds_sample :
  option_map issued
    (batchingLoop (mkBufferedClient singleConfig defaultClient 0 0) 1000000000
       (map recv (repeat (1000000000, loginEvent) 3)))
  = Some ["b-1000-0"; "b-1000-1"; "b-1000-2"; "b-1000-3"].
Proof. vm_compute. reflexivity. Qed.

Example string_order_sample : String.ltb "b-1000-10" "b-1000-9" = true.
Proof. reflexivity. Qed.



(* ------------------------------------------------------------------ *)
(** ** The batcher: the age timer *)

(** The size case restarts the timer. *)
Lemma size_seal_restarts_timer conf s now msg s' :
  batchingLoop_step conf s now (RecvMsg msg) = Some s' ->
  List.length (outBatches s') = S (List.length (outBatches s)) ->
  timer s' = Some (now + MaxDurationPerBatch conf).
Proof.
  unfold batchingLoop_step. destruct (exited s); [discriminate |].
  cbn [Msgs].
  destruct (Z.of_nat (List.length (Msgs (b s) ++ [msg]))
            >=? MaxMessagesPerBatch conf);
    cbn [newBatch]; intros H; inversion H; subst s'; cbn [timer outBatches].
  - reflexivity.
  - intros Hl. lia.
Qed.

(** C2. The timer case does not restart the timer.  After any tick,
    whether it sealed a batch or found the batch empty, the timer is
    spent: the timer case cannot fire again, at any later instant, and
    messages that arrive without filling a batch leave it spent, so the
    open batch they start is not sealed by age.  Only the size case sets
    the timer again. *)
Theorem timer_seal_leaves_timer_spent conf s now s' :
  batchingLoop_step conf s now TimerC = Some s' ->
  timer s' = None /\
  (forall later, batchingLoop_step conf s' later TimerC = None) /\
  (forall later msg s'',
      batchingLoop_step conf s' later (RecvMsg msg) = Some s'' ->
      List.length (outBatches s'') = List.length (outBatches s') ->
      Msgs (b s'') = Msgs (b s') ++ [msg] /\
      timer s'' = None /\
      forall later', batchingLoop_step conf s'' later' TimerC = None).
Proof.
  intros Hstep.
  assert (Ht : timer s' = None).
  { revert Hstep. unfold batchingLoop_step.
    destruct (exited s); [discriminate |].
    destruct (timer s) as [t |]; [| discriminate].
    destruct (t <=? now); [| discriminate].
    destruct (Z.of_nat (List.length (Msgs (b s))) >? 0);
      cbn [newBatch]; intros H; inversion H; reflexivity. }
  assert (Hspent : forall x, timer x = None ->
                             forall later, batchingLoop_step conf x later TimerC = None).
  { intros x Hx later. unfold batchingLoop_step. rewrite Hx.
    destruct (exited x); reflexivity. }
  split; [exact Ht |]. split; [exact (Hspent s' Ht) |].
  intros later msg s'' Hrecv Hlen.
  assert (H2 : Msgs (b s'') = Msgs (b s') ++ [msg] /\ timer s'' = None).
  { revert Hrecv Hlen. unfold batchingLoop_step.
    destruct (exited s'); [discriminate |]. cbn [Msgs].
    destruct (Z.of_nat (List.length (Msgs (b s') ++ [msg]))
              >=? MaxMessagesPerBatch conf);
      cbn [newBatch]; intros H; inversion H; subst s'';
      cbn [timer outBatches b Msgs].
    - rewrite length_app. simpl. lia.
    - intros _. split; [reflexivity | exact Ht]. }
  destruct H2 as [Hm Ht2].
  split; [exact Hm |]. split; [exact Ht2 |]. exact (Hspent s'' Ht2).
Qed.

Lemma timer_seal_leaves_timer_spent_witness :
  batchingLoop (mkBufferedClient agedConfig defaultClient 0 0) 0
               [(ms 10, RecvMsg loginEvent); (ms 50, TimerC)]
  = Some afterTick /\
  batchingLoop (mkBufferedClient agedConfig defaultClient 0 0) 0
               [(ms 10, RecvMsg loginEvent); (ms 50, TimerC);
                (ms 60, RecvMsg loginEvent)]
  = Some afterSecondMessage /\
  timer afterSecondMessage = None /\
  forall later, batchingLoop_step agedConfig afterSecondMessage later TimerC = None.
Proof.
  assert (H1 : batchingLoop_step agedConfig
                 (mkBatcher (mkMessages "b-0-0" [loginEvent]) 1 (Some (ms 50))
                            [] false)
                 (ms 50) TimerC = Some afterTick)
    by (vm_compute; reflexivity).
  assert (H2 : batchingLoop_step agedConfig afterTick (ms 60) (RecvMsg loginEvent)
               = Some afterSecondMessage)
    by (vm_compute; reflexivity).
  destruct (timer_seal_leaves_timer_spent _ _ _ _ H1) as (_ & _ & H).
  destruct (H _ _ _ H2 eq_refl) as (_ & H3 & H4).
  split; [vm_compute; reflexivity |].
  split; [vm_compute; reflexivity |].
  split; [exact H3 | exact H4].
Defined.

(* ================================================================== *)
(** * Further properties of the transport *)

(** ** What every request of one call has in common *)

Lemma signed_outgoing_fixed_headers c data n a :
  let q := signed c (outgoing c data n) method_ api_ data a in
  Header_Get "Content-Type" (Header q)
  = Some ("application/" ++ Encoding c)%string /\
  Header_Get "X-Ingest-Client-ID" (Header q) = Some (ClientId c) /\
  Header_Get "Content-Encoding" (Header q)
  = (if NoCompression c then None else Some "gzip") /\
  Header_Get "User-Agent" (Header q) = Some "turbine-ingest-client/unknown" /\
  Close q = (Z.rem n 20 =? 0).
Proof.
  unfold signed, outgoing, path_Join. cbv zeta.
  destruct (Z.rem n 20 =? 0); destruct (NoCompression c);
    repeat split; reflexivity.
Qed.

(** X1. The body is serialized and compressed once per call: every
    request [Collect] issues, first attempt or retry, is a POST to the
    same URL with the same body, the bytes [encoding] (and [compress],
    unless switched off) produced, and the same content headers;
    [Content-Encoding: gzip] is present exactly when compression is on. *)
Theorem Collect_requests_uniform rt c messages script q :
  In q (sends (Collect rt c messages script)) ->
  exists data,
    Collect_body rt (conf c) messages = Ok data /\
    Body q = data /\
    Method q = "POST" /\
    URL q = (Endpoint (conf c) ++ "/v1/collect")%string /\
    Header_Get "Content-Type" (Header q)
    = Some ("application/" ++ Encoding (conf c))%string /\
    Header_Get "X-Ingest-Client-ID" (Header q) = Some (ClientId (conf c)) /\
    Header_Get "Content-Encoding" (Header q)
    = (if NoCompression (conf c) then None else Some "gzip") /\
    Header_Get "User-Agent" (Header q) = Some "turbine-ingest-client/unknown".
Proof.
  intros Hin. rewrite Collect_eq in Hin.
  destruct (Collect_body rt (conf c) messages) as [data | e];
    [| simpl in Hin; contradiction].
  destruct (retry_sends_shape _ _ _ _ _ _ _ _ Hin) as (n' & a & _ & ->).
  destruct (signed_outgoing_headers (conf c) data n' a)
    as (Hm & Hu & Hb & _).
  destruct (signed_outgoing_fixed_headers (conf c) data n' a)
    as (H1 & H2 & H3 & H4 & _).
  exists data. repeat split; assumption.
Qed.

Lemma Collect_requests_uniform_witness :
  exists q data,
    In q (sends (Collect exampleRuntime defaultClient exampleMessages
                         [unavailable; accepted])) /\
    Collect_body exampleRuntime (conf defaultClient) exampleMessages = Ok data /\
    Body q = data /\
    Header_Get "Content-Type" (Header q) = Some "application/json".
Proof.
  assert (Hs : exists q,
             nth_error (sends (Collect exampleRuntime defaultClient
                                       exampleMessages [unavailable; accepted])) 1
             = Some q)
    by (eexists; vm_compute; reflexivity).
  destruct Hs as (q & Hq). apply nth_error_In in Hq.
  destruct (Collect_requests_uniform _ _ _ _ _ Hq)
    as (data & Hb & Hbody & _ & _ & Hct & _).
  exists q, data. repeat split; assumption.
Defined.

(** ** Retrying without bound *)

(** X2. [Collect] has no retry limit: as long as every attempt fails with
    a cared-for error and every backoff wait runs to its end, the call is
    still in its loop, having sent one request and waited once per
    attempt. *)
Theorem Collect_never_gives_up rt c messages data script :
  Collect_body rt (conf c) messages = Ok data ->
  http_NewRequest rt method_ (Endpoint (conf c) ++ api_)%string = None ->
  Forall (fun a => retried rt a = true) script ->
  outcome (Collect rt c messages script) = Retrying /\
  List.length (sends (Collect rt c messages script)) = List.length script /\
  List.length (waits (Collect rt c messages script)) = List.length script.
Proof.
  intros Hb HN Hall. rewrite Collect_eq, Hb.
  generalize (RetryTimeIntervalInitial (conf c)) as ti.
  generalize (reqCount c) as n.
  induction Hall as [| a script Ha _ IH]; intros n ti.
  - rewrite (retry_nil _ _ _ _ _ _ HN). repeat split.
  - split; [| split].
    + rewrite (retry_cons _ _ _ _ _ _ _ _ HN). cbv zeta.
      apply retried_spec in Ha. destruct Ha as (err & -> & -> & ->).
      cbn [outcome]. apply IH.
    + rewrite (retry_sends_cons _ _ _ _ _ _ _ _ HN), Ha.
      cbn [List.length]. f_equal. apply IH.
    + rewrite (retry_waits_cons _ _ _ _ _ _ _ _ HN).
      apply retried_spec in Ha. destruct Ha as (err & -> & -> & ->).
      cbn [List.length]. f_equal. apply IH.
Qed.

Lemma Collect_never_gives_up_witness :
  outcome (Collect exampleRuntime defaultClient exampleMessages
                   (repeat unavailable 50)) = Retrying /\
  List.length (sends (Collect exampleRuntime defaultClient exampleMessages
                              (repeat unavailable 50))) = 50%nat.
Proof.
  destruct (Collect_never_gives_up
              exampleRuntime defaultClient exampleMessages
              (x1f :: bytes_of_string "{batchId:b-1-0}" ++ [x00])
              (repeat unavailable 50)) as (H1 & H2 & _).
  - reflexivity.
  - reflexivity.
  - apply Forall_forall. intros a Ha. apply repeat_spec in Ha. subst a.
    reflexivity.
  - rewrite repeat_length in H2. split; assumption.
Defined.

(** X3. Retryable failures followed by a success: the call returns nil
    after one request per failure plus one, having waited once per
    failure, whatever the network would have answered next. *)
Theorem Collect_retry_then_success rt c messages data pre a rest :
  Collect_body rt (conf c) messages = Ok data ->
  http_NewRequest rt method_ (Endpoint (conf c) ++ api_)%string = None ->
  Forall (fun x => retried rt x = true) pre ->
  reply_error rt (reply a) = None ->
  outcome (Collect rt c messages (pre ++ a :: rest)) = Returned None /\
  List.length (sends (Collect rt c messages (pre ++ a :: rest)))
  = S (List.length pre) /\
  List.length (waits (Collect rt c messages (pre ++ a :: rest)))
  = List.length pre.
Proof.
  intros Hb HN Hall He. rewrite Collect_eq, Hb.
  generalize (RetryTimeIntervalInitial (conf c)) as ti.
  generalize (reqCount c) as n.
  induction Hall as [| x pre Hx _ IH]; intros n ti.
  - cbn [app]. split; [| split].
    + rewrite (retry_cons _ _ _ _ _ _ _ _ HN). cbv zeta. rewrite He. reflexivity.
    + rewrite (retry_sends_cons _ _ _ _ _ _ _ _ HN).
      unfold retried. rewrite He. reflexivity.
    + rewrite (retry_waits_cons _ _ _ _ _ _ _ _ HN), He. reflexivity.
  - rewrite <- app_comm_cons. split; [| split].
    + rewrite (retry_cons _ _ _ _ _ _ _ _ HN). cbv zeta.
      apply retried_spec in Hx. destruct Hx as (err & -> & -> & ->).
      cbn [outcome]. apply IH.
    + rewrite (retry_sends_cons _ _ _ _ _ _ _ _ HN), Hx.
      cbn [List.length]. f_equal. apply IH.
    + rewrite (retry_waits_cons _ _ _ _ _ _ _ _ HN).
      apply retried_spec in Hx. destruct Hx as (err & -> & -> & ->).
      cbn [List.length]. f_equal. apply IH.
Qed.

Lemma Collect_retry_then_success_witness :
  outcome (Collect exampleRuntime defaultClient exampleMessages
                   [unavailable; unavailable; accepted; rejected])
  = Returned None /\
  waits (Collect exampleRuntime defaultClient exampleMessages
                 [unavailable; unavailable; accepted; rejected])
  = [200 * Millisecond; 400 * Millisecond].
Proof.
  destruct (Collect_retry_then_success
              exampleRuntime defaultClient exampleMessages
              (x1f :: bytes_of_string "{batchId:b-1-0}" ++ [x00])
              [unavailable; unavailable] accepted [rejected])
    as (H1 & _ & _).
  - reflexivity.
  - reflexivity.
  - repeat constructor.
  - reflexivity.
  - split; [exact H1 | reflexivity].
Defined.

(** ** Backoff waits, for all inputs *)

Lemma retry_waits_bounded rt c data tmax script :
  forall ti n,
    Forall (fun d => d <= tmax) (waits (retry rt c data ti tmax n script)).
Proof.
  induction script as [| a script IH]; intros ti n.
  - simpl. destruct (http_NewRequest rt method_ (Endpoint c ++ api_)%string);
      constructor.
  - destruct (http_NewRequest rt method_ (Endpoint c ++ api_)%string)
      as [e |] eqn:HN.
    + rewrite (retry_NewRequest_error _ _ _ _ _ _ _ _ HN). constructor.
    + rewrite (retry_waits_cons _ _ _ _ _ _ _ _ HN).
      destruct (reply_error rt (reply a)) as [err |]; [| constructor].
      destruct (isCaredError err); [| constructor].
      constructor; [apply backoff_le_max |].
      destruct (wait a); [apply IH | constructor].
Qed.

(** X4. No backoff wait of [Collect] exceeds [RetryTimeIntervalMax]: for
    every configuration, zero, negative and overflowing intervals
    included, and every course of the call. *)
Theorem Collect_waits_bounded rt c messages script :
  Forall (fun d => d <= RetryTimeIntervalMax (conf c))
         (waits (Collect rt c messages script)).
Proof.
  rewrite Collect_eq.
  destruct (Collect_body rt (conf c) messages) as [data | e];
    [apply retry_waits_bounded | constructor].
Qed.

Lemma retry_waits_sorted rt c data tmax script :
  0 <= tmax < 2 ^ 62 ->
  forall t0 n,
    0 <= t0 < 2 ^ 62 -> t0 <= tmax ->
    nondecreasing (t0 :: waits (retry rt c data t0 tmax n script)).
Proof.
  intros Hmax.
  induction script as [| a script IH]; intros t0 n Ht0 Hle.
  - simpl. destruct (http_NewRequest rt method_ (Endpoint c ++ api_)%string);
      exact I.
  - destruct (http_NewRequest rt method_ (Endpoint c ++ api_)%string)
      as [e |] eqn:HN.
    + rewrite (retry_NewRequest_error _ _ _ _ _ _ _ _ HN). exact I.
    + rewrite (retry_waits_cons _ _ _ _ _ _ _ _ HN).
      destruct (reply_error rt (reply a)) as [err |]; [| exact I].
      destruct (isCaredError err); [| exact I].
      assert (Hb : backoff t0 tmax = Z.min (t0 * 2) tmax)
        by (apply backoff_min; lia).
      split; [lia |].
      destruct (wait a); [| exact I].
      apply IH; lia.
Qed.

(** X5. With both intervals positive and below 2^62 nanoseconds, the
    waits of one call never shrink: each is at least the one before,
    along every course of the call. *)
Theorem Collect_waits_nondecreasing rt c messages script :
  0 < RetryTimeIntervalInitial (conf c) < 2 ^ 62 ->
  0 < RetryTimeIntervalMax (conf c) < 2 ^ 62 ->
  nondecreasing (waits (Collect rt c messages script)).
Proof.
  intros Hi Hm. rewrite Collect_eq.
  destruct (Collect_body rt (conf c) messages) as [data | e]; [| exact I].
  generalize (reqCount c) as n. intros n.
  destruct script as [| a script].
  - simpl. destruct (http_NewRequest _ _ _); exact I.
  - destruct (http_NewRequest rt method_ (Endpoint (conf c) ++ api_)%string)
      as [e |] eqn:HN.
    + rewrite (retry_NewRequest_error _ _ _ _ _ _ _ _ HN). exact I.
    + rewrite (retry_waits_cons _ _ _ _ _ _ _ _ HN).
      destruct (reply_error rt (reply a)) as [err |]; [| exact I].
      destruct (isCaredError err); [| exact I].
      destruct (wait a); [| exact I].
      assert (Hb : backoff (RetryTimeIntervalInitial (conf c))
                           (RetryTimeIntervalMax (conf c))
                   = Z.min (RetryTimeIntervalInitial (conf c) * 2)
                           (RetryTimeIntervalMax (conf c)))
        by (apply backoff_min; lia).
      apply retry_waits_sorted; lia.
Qed.

Lemma Collect_waits_nondecreasing_witness :
  nondecreasing (waits (Collect exampleRuntime defaultClient exampleMessages
                                (repeat unavailable 8))) /\
  waits (Collect exampleRuntime defaultClient exampleMessages
                 (repeat unavailable 8))
  = map (fun k => k * Millisecond) [200; 400; 800; 1600; 3200; 5000; 5000; 5000].
Proof.
  split; [| vm_compute; reflexivity].
  apply Collect_waits_nondecreasing; vm_compute; split; reflexivity.
Defined.

(** The bound of X5 is needed: an interval of 3 * 2^60 ns doubles to
    3 * 2^61, then wraps to a negative duration. *)
Example Collect_waits_wrap :
  waits (Collect exampleRuntime hugeIntervalClient exampleMessages
                 [unavailable; unavailable])
  = [3 * 2 ^ 61; - 2 ^ 62].
Proof. vm_compute. reflexivity. Qed.

(** ** Which errors are retried *)

Lemma errors_As_Error_root e :
  errors_As_Error e = match root e with EError x => Some x | _ => None end.
Proof. induction e; simpl; auto. Qed.

Lemma errors_Is_Errno_root e target :
  errors_Is_Errno e target
  = match root e with EErrno n => n =? target | _ => false end.
Proof. induction e; simpl; auto. Qed.

(** X6. Wrapping is transparent to the retry decision: an error is judged
    by the innermost value of its chain alone.  It is retried when that
    value is an [Error] with status 429, 408, 502, 503 or 504, or the
    errno [ETIMEDOUT] or [ECONNREFUSED]; a chain ending in a context
    error or in a plain message is never retried. *)
Theorem isCaredError_root (err : error) :
  isCaredError err =
  match root err with
  | EError e =>
      (StatusCode e =? 429) || (StatusCode e =? 408) || (StatusCode e =? 502)
      || (StatusCode e =? 503) || (StatusCode e =? 504)
  | EErrno n => (n =? ETIMEDOUT) || (n =? ECONNREFUSED)
  | _ => false
  end.
Proof.
  unfold isCaredError.
  rewrite errors_As_Error_root, !errors_Is_Errno_root.
  unfold StatusTooManyRequests, StatusRequestTimeout, StatusBadGateway,
    StatusServiceUnavailable, StatusGatewayTimeout.
  destruct (root err) as [e | n | ce | msg | op inner]; try reflexivity.
  - destruct (StatusCode e =? 429); [reflexivity |].
    destruct (StatusCode e =? 408); [reflexivity |].
    destruct (StatusCode e =? 502); [reflexivity |].
    destruct (StatusCode e =? 503); [reflexivity |].
    destruct (StatusCode e =? 504); reflexivity.
  - destruct (n =? ETIMEDOUT); [reflexivity |].
    destruct (n =? ECONNREFUSED); reflexivity.
Qed.

(** X7. When the context ends while a request is in flight, so that
    [httpClient.Do] fails with an error wrapping the context's, [Collect]
    returns that wrapped error at once: no wait, no further request. *)
Theorem Collect_context_error_in_flight rt c messages data a err ce script :
  Collect_body rt (conf c) messages = Ok data ->
  http_NewRequest rt method_ (Endpoint (conf c) ++ api_)%string = None ->
  reply a = DoError err ->
  root err = EContext ce ->
  outcome (Collect rt c messages (a :: script)) = Returned (Some err) /\
  List.length (sends (Collect rt c messages (a :: script))) = 1%nat /\
  waits (Collect rt c messages (a :: script)) = [].
Proof.
  intros Hb HN Hr Hroot.
  assert (Hc : isCaredError err = false)
    by (rewrite isCaredError_root, Hroot; reflexivity).
  assert (He : reply_error rt (reply a) = Some err)
    by (rewrite Hr; reflexivity).
  rewrite Collect_eq, Hb. split; [| split].
  - rewrite (retry_cons _ _ _ _ _ _ _ _ HN). cbv zeta. rewrite He, Hc.
    reflexivity.
  - rewrite (retry_sends_cons _ _ _ _ _ _ _ _ HN). unfold retried.
    rewrite He, Hc. reflexivity.
  - rewrite (retry_waits_cons _ _ _ _ _ _ _ _ HN), He, Hc. reflexivity.
Qed.

Lemma Collect_context_error_in_flight_witness :
  outcome (Collect exampleRuntime defaultClient exampleMessages
                   [cancelled_in_flight; accepted])
  = Returned (Some (EWrap "Post" (EContext Canceled))) /\
  isCaredError (EWrap "Post" (EWrap "dial tcp" (EWrap "connect"
                  (EErrno ECONNREFUSED)))) = true.
Proof.
  destruct (Collect_context_error_in_flight
              exampleRuntime defaultClient exampleMessages
              (x1f :: bytes_of_string "{batchId:b-1-0}" ++ [x00])
              cancelled_in_flight (EWrap "Post" (EContext Canceled)) Canceled
              [accepted] eq_refl eq_refl eq_refl eq_refl) as (H & _).
  split; [exact H | reflexivity].
Defined.

(** ** Calls that send nothing *)

(** X8. [Collect] issues no request exactly when serialization,
    compression or the construction of the request fails (or the network
    is never consulted); it then returns that error and leaves the
    client's request counter as it was. *)
Theorem Collect_sends_nothing rt c messages a script :
  sends (Collect rt c messages (a :: script)) = [] <->
  (exists err, Collect_body rt (conf c) messages = Err err) \/
  (exists err,
      http_NewRequest rt method_ (Endpoint (conf c) ++ api_)%string = Some err).
Proof.
  rewrite Collect_eq.
  destruct (Collect_body rt (conf c) messages) as [data | e].
  - destruct (http_NewRequest rt method_ (Endpoint (conf c) ++ api_)%string)
      as [e |] eqn:HN.
    + rewrite (retry_NewRequest_error _ _ _ _ _ _ _ _ HN).
      split; [intros _; right; eauto | reflexivity].
    + rewrite (retry_sends_cons _ _ _ _ _ _ _ _ HN).
      split; [discriminate |].
      intros [(err & H) | (err & H)]; discriminate H.
  - split; [intros _; left; eauto | reflexivity].
Qed.

Lemma Collect_pre_send_failure rt c messages script err :
  Collect_body rt (conf c) messages = Err err \/
  (exists data, Collect_body rt (conf c) messages = Ok data /\
                http_NewRequest rt method_ (Endpoint (conf c) ++ api_)%string
                = Some err) ->
  Collect rt c messages script = mkRun [] (Returned (Some err)) (reqCount c).
Proof.
  rewrite Collect_eq.
  intros [-> | (data & -> & HN)]; [reflexivity |].
  apply retry_NewRequest_error. exact HN.
Qed.

Lemma compress_error rt content :
  (forall err, gzip_Write rt content = Err err -> compress rt content = Err err) /\
  (forall buf err,
      gzip_Write rt content = Ok buf -> gzip_Close rt buf = Err err ->
      compress rt content = Err err) /\
  (forall buf out,
      gzip_Write rt content = Ok buf -> gzip_Close rt buf = Ok out ->
      compress rt content = Ok out).
Proof.
  unfold compress. repeat split.
  - intros err ->. reflexivity.
  - intros buf err -> ->. reflexivity.
  - intros buf out -> ->. reflexivity.
Qed.

(** ** The request counter and the connection purge *)

Lemma wrap64_range z : in_int64 (wrap64 z).
Proof.
  unfold in_int64, int64_min, int64_max, wrap64.
  pose proof (Z.mod_pos_bound (z + 2 ^ 63) (2 ^ 64) ltac:(lia)). lia.
Qed.

Lemma wrap64_add_l a c : wrap64 (wrap64 a + c) = wrap64 (a + c).
Proof.
  unfold wrap64. f_equal.
  replace ((a + 2 ^ 63) mod 2 ^ 64 - 2 ^ 63 + c + 2 ^ 63)
    with ((a + 2 ^ 63) mod 2 ^ 64 + c) by ring.
  rewrite Zplus_mod_idemp_l. f_equal. ring.
Qed.

Lemma trace_purges_app t1 t2 :
  trace_purges (t1 ++ t2) = (trace_purges t1 + trace_purges t2)%nat.
Proof. unfold trace_purges. rewrite filter_app. apply length_app. Qed.

Lemma retry_counter rt c data tmax script :
  forall ti n,
    in_int64 n ->
    let r := retry rt c data ti tmax n script in
    reqCount' r = wrap64 (n + Z.of_nat (List.length (sends r))) /\
    map Close (sends r)
    = map (fun i => Z.rem (wrap64 (n + Z.of_nat i + 1)) 20 =? 0)
          (seq 0 (List.length (sends r))) /\
    trace_purges (trace r) = List.length (filter Close (sends r)).
Proof.
  induction script as [| a script IH]; intros ti n Hn; cbv zeta.
  - simpl. destruct (http_NewRequest rt method_ (Endpoint c ++ api_)%string);
      simpl; rewrite Z.add_0_r, wrap64_id by exact Hn; repeat split.
  - destruct (http_NewRequest rt method_ (Endpoint c ++ api_)%string)
      as [e |] eqn:HN.
    + rewrite (retry_NewRequest_error _ _ _ _ _ _ _ _ HN). simpl.
      rewrite Z.add_0_r, wrap64_id by exact Hn. repeat split.
    + rewrite (retry_sends_cons _ _ _ _ _ _ _ _ HN).
      rewrite (retry_cons _ _ _ _ _ _ _ _ HN). cbv zeta.
      destruct (signed_outgoing_fixed_headers c data (wrap64 (n + 1)) a)
        as (_ & _ & _ & _ & Hclose). cbv zeta in Hclose.
      assert (Hpre : trace_purges
                       (purge (wrap64 (n + 1))
                        ++ [Do (signed c (outgoing c data (wrap64 (n + 1)))
                                       method_ api_ data a)])
                     = if Z.rem (wrap64 (n + 1)) 20 =? 0 then 1%nat else 0%nat).
      { unfold trace_purges, purge.
        destruct (Z.rem (wrap64 (n + 1)) 20 =? 0); reflexivity. }
      destruct (IH (backoff ti tmax) (wrap64 (n + 1)) (wrap64_range _))
        as (IH1 & IH2 & IH3). cbv zeta in IH1, IH2, IH3.
      unfold retried.
      destruct (reply_error rt (reply a)) as [err |];
        [destruct (isCaredError err); [destruct (wait a) |] |];
        cbn [andb reqCount' trace List.length map filter seq];
        rewrite ?Hclose.
      * (* retried *)
        split; [| split].
        -- rewrite IH1, wrap64_add_l. f_equal. lia.
        -- f_equal; [f_equal; f_equal; f_equal; lia |].
           rewrite IH2, <- seq_shift, map_map. apply map_ext.
           intros i.
           replace (wrap64 (n + 1) + Z.of_nat i + 1)
             with (wrap64 (n + 1) + (Z.of_nat i + 1)) by ring.
           rewrite wrap64_add_l. f_equal. f_equal. f_equal. lia.
        -- rewrite trace_purges_app, Hpre.
           change (trace_purges (After (backoff ti tmax) :: ?t))
             with (trace_purges t).
           rewrite IH3.
           destruct (Z.rem (wrap64 (n + 1)) 20 =? 0); reflexivity.
      * (* context done during the wait *)
        split; [| split].
        -- f_equal.
        -- f_equal. f_equal. f_equal. f_equal. lia.
        -- rewrite trace_purges_app, Hpre.
           destruct (Z.rem (wrap64 (n + 1)) 20 =? 0); reflexivity.
      * split; [| split].
        -- f_equal.
        -- f_equal. f_equal. f_equal. f_equal. lia.
        -- rewrite Hpre.
           destruct (Z.rem (wrap64 (n + 1)) 20 =? 0); reflexivity.
      * split; [| split].
        -- f_equal.
        -- f_equal. f_equal. f_equal. f_equal. lia.
        -- rewrite Hpre.
           destruct (Z.rem (wrap64 (n + 1)) 20 =? 0); reflexivity.
Qed.

(** X9. The client's request counter counts send attempts across calls:
    a call that starts with the counter at [n] and issues [k] requests
    leaves it at [n + k].  The [i]-th request of the call (from 0) asks
    for its connection to be closed exactly when [n + i + 1] is a multiple
    of 20, and the idle connections are purged once per such request:
    every 20th request of a client, retries included. *)
Theorem Collect_request_counter rt c messages script :
  0 <= reqCount c ->
  reqCount c + Z.of_nat (List.length script) < 2 ^ 63 ->
  let r := Collect rt c messages script in
  reqCount' r = reqCount c + Z.of_nat (List.length (sends r)) /\
  map Close (sends r)
  = map (fun i => (reqCount c + Z.of_nat i + 1) mod 20 =? 0)
        (seq 0 (List.length (sends r))) /\
  trace_purges (trace r) = List.length (filter Close (sends r)).
Proof.
  intros H0 Hlt r. subst r. rewrite Collect_eq.
  destruct (Collect_body rt (conf c) messages) as [data | e].
  - assert (Hn : in_int64 (reqCount c))
      by (unfold in_int64, int64_min, int64_max; lia).
    destruct (retry_counter rt (conf c) data (RetryTimeIntervalMax (conf c))
                script (RetryTimeIntervalInitial (conf c)) (reqCount c) Hn)
      as (H1 & H2 & H3). cbv zeta in H1, H2, H3.
    assert (Hlen : (List.length
                      (sends (retry rt (conf c) data
                                    (RetryTimeIntervalInitial (conf c))
                                    (RetryTimeIntervalMax (conf c))
                                    (reqCount c) script))
                    <= List.length script)%nat).
    { generalize (RetryTimeIntervalInitial (conf c)) as ti.
      generalize (reqCount c) as n. clear.
      induction script as [| a script IH]; intros n ti.
      - simpl. destruct (http_NewRequest _ _ _); simpl; lia.
      - destruct (http_NewRequest rt method_ (Endpoint (conf c) ++ api_)%string)
          as [e |] eqn:HN.
        + rewrite (retry_NewRequest_error _ _ _ _ _ _ _ _ HN). simpl. lia.
        + rewrite (retry_sends_cons _ _ _ _ _ _ _ _ HN).
          destruct (retried rt a); cbn [List.length];
            [specialize (IH (wrap64 (n + 1))
                            (backoff ti (RetryTimeIntervalMax (conf c)))) |];
            lia. }
    split; [| split].
    + rewrite H1. apply wrap64_id.
      unfold in_int64, int64_min, int64_max. lia.
    + rewrite H2. apply map_ext_in. intros i Hi. apply in_seq in Hi.
      rewrite wrap64_id by (unfold in_int64, int64_min, int64_max; lia).
      rewrite Z.rem_mod_nonneg by lia. reflexivity.
    + exact H3.
  - simpl. rewrite Z.add_0_r. repeat split.
Qed.

Lemma Collect_request_counter_witness :
  reqCount' (Collect exampleRuntime defaultClient exampleMessages
                     (repeat unavailable 40)) = 40 /\
  filter (fun i => nth i (map Close
                            (sends (Collect exampleRuntime defaultClient
                                            exampleMessages
                                            (repeat unavailable 40)))) false)
         (seq 0 40) = [19%nat; 39%nat].
Proof.
  destruct (Collect_request_counter exampleRuntime defaultClient
              exampleMessages (repeat unavailable 40)) as (H1 & _ & _).
  - simpl. lia.
  - rewrite repeat_length. simpl. lia.
  - split; [rewrite H1 |]; vm_compute; reflexivity.
Defined.

(** ** The signature and field boundaries *)

Lemma bytes_of_string_app s1 s2 :
  bytes_of_string (s1 ++ s2)%string = bytes_of_string s1 ++ bytes_of_string s2.
Proof.
  unfold bytes_of_string, list_byte_of_string.
  rewrite list_ascii_of_string_app. apply map_app.
Qed.

(** X10. The signed fields are concatenated without separators, so the
    signature does not fix where one field ends and the next begins:
    moving characters from the end of the access key id to the front of
    the nonce, from the end of the nonce to the front of the timestamp, or
    from the end of the timestamp to the front of the body leaves the
    signature unchanged. *)
Theorem calculateSignature_boundaries method url accessKeyId timestamp nonce
        secret body (x : string) :
  calculateSignature method url (accessKeyId ++ x)%string timestamp nonce
                     secret body
  = calculateSignature method url accessKeyId timestamp (x ++ nonce)%string
                       secret body /\
  calculateSignature method url accessKeyId timestamp (nonce ++ x)%string
                     secret body
  = calculateSignature method url accessKeyId (x ++ timestamp)%string nonce
                       secret body /\
  calculateSignature method url accessKeyId (timestamp ++ x)%string nonce
                     secret body
  = calculateSignature method url accessKeyId timestamp nonce secret
                       (bytes_of_string x ++ body).
Proof.
  rewrite !calculateSignature_eq, !bytes_of_string_app, <- !app_assoc.
  repeat split; reflexivity.
Qed.

Example calculateSignature_boundaries_sample :
  calculateSignature "POST" "/v1/collect" "admin" "1700000000" "123"
                     "adminSecret" []
  = calculateSignature "POST" "/v1/collect" "admin1" "1700000000" "23"
                       "adminSecret" [].
Proof. vm_compute. reflexivity. Qed.

(** ** The text of a transport error *)

(** X11. For a reply other than 200 whose body [json.Unmarshal] rejects,
    the error [Collect]'s attempt returns reads
    ["http code: <status code>: <raw body>"]. *)
Theorem unparseable_reply_error_text rt c req method api data a code status
        body partial e :
  reply a = Response code status body ->
  code <> 200 ->
  json_Unmarshal rt body Error_zero = (partial, Some e) ->
  exists rerr,
    snd (doRequestWithContext rt c req method api data a) = Some (EError rerr) /\
    error_string (EError rerr)
    = ("http code: " ++ Itoa code ++ ": " ++ string_of_bytes body)%string.
Proof.
  intros Hr Hc Hu. rewrite doRequestWithContext_error, Hr. unfold reply_error.
  destruct (Z.eqb_spec code 200) as [E | _]; [contradiction |].
  rewrite Hu. eexists. split; reflexivity.
Qed.

Lemma unparseable_reply_error_text_witness :
  option_map error_string
    (snd (doRequestWithContext exampleRuntime exampleConfig
            (outgoing exampleConfig [] 1) method_ api_ [] notJSON))
  = Some "http code: 500: upstream exploded".
Proof.
  destruct (unparseable_reply_error_text
              exampleRuntime exampleConfig (outgoing exampleConfig [] 1)
              method_ api_ [] notJSON 500 "500 Internal Server Error"
              (bytes_of_string "upstream exploded") Error_zero
              (EString "invalid character looking for beginning of value")
              eq_refl ltac:(discriminate) eq_refl) as (rerr & H1 & H2).
  rewrite H1. cbn [option_map]. rewrite H2. vm_compute. reflexivity.
Defined.

(* ================================================================== *)
(** * Further properties of the constructors *)

(** X12. [NewClient] checks the endpoint first, then the encoding, then
    the compression algorithm, and reports the first check that fails:
    an empty endpoint, an encoding other than json, msgpack or empty, a
    compression algorithm other than gzip or empty.  It succeeds in every
    other case; no other field is validated. *)
Theorem NewClient_result (config : Config) :
  (Endpoint config = "" /\
   NewClient config = Err (EString "endpoint is required")) \/
  (Endpoint config <> "" /\
   ~ In (Encoding config) [""; "json"; "msgpack"] /\
   NewClient config
   = Err (EString ("unkonwn encoding " ++ Encoding config)%string)) \/
  (Endpoint config <> "" /\
   In (Encoding config) [""; "json"; "msgpack"] /\
   ~ In (CompressionAlgo config) [""; "gzip"] /\
   NewClient config
   = Err (EString ("unkonwn compressionAlgo " ++ CompressionAlgo config)%string)) \/
  (Endpoint config <> "" /\
   In (Encoding config) [""; "json"; "msgpack"] /\
   In (CompressionAlgo config) [""; "gzip"] /\
   exists c, NewClient config = Ok c).
Proof.
  rewrite NewClient_stages.
  destruct (String.eqb_spec (Endpoint config) "") as [E | E]; [left; auto |].
  right. unfold NewClient_switches, NewClient_compression.
  cbn [Encoding CompressionAlgo set_Encoding].
  destruct (String.eqb_spec (Encoding config) "json") as [-> | N1];
    [| destruct (String.eqb_spec (Encoding config) "msgpack") as [-> | N2];
       [| destruct (String.eqb_spec (Encoding config) "") as [-> | N3]]];
    cbn [orb String.eqb Ascii.eqb Bool.eqb andb];
    try (left; repeat split; auto; simpl; intuition congruence);
    right;
    (destruct (String.eqb_spec (CompressionAlgo config) "gzip") as [-> | M1];
     [| destruct (String.eqb_spec (CompressionAlgo config) "") as [-> | M2]]);
    cbn [orb String.eqb Ascii.eqb Bool.eqb andb];
    try (right; repeat split; simpl; auto; eexists; reflexivity);
    left; repeat split; simpl; auto; intuition congruence.
Qed.

Example NewClient_error_order :
  NewClient badEncodingConfig = Err (EString "unkonwn encoding xml").
Proof. reflexivity. Qed.

(** X13. [NewClient] changes nothing in a configuration it has already
    completed: applied to the configuration of a client it returned, it
    returns a client with that same configuration. *)
Theorem NewClient_idempotent (config : Config) (c : Client) :
  NewClient config = Ok c -> NewClient (conf c) = Ok (mkClient (conf c) 0).
Proof.
  intros H.
  destruct (NewClient_validated _ _ H) as (Hep & Venc & Valgo).
  revert H. rewrite !NewClient_stages.
  destruct (String.eqb_spec (Endpoint config) ""); [contradiction |].
  intros H. apply NewClient_switches_conf in H. destruct H as (-> & _ & _).
  cbn [conf Endpoint AccessKeyID AccessKeySecret ClientId Encoding
       NoCompression CompressionAlgo RetryTimeIntervalInitial
       RetryTimeIntervalMax Logger_].
  destruct (String.eqb_spec (Endpoint config) ""); [contradiction |].
  assert (HZ : forall x d, d <> 0 -> orDefaultZ (orDefaultZ x d) d = orDefaultZ x d).
  { intros x d Hd. unfold orDefaultZ.
    destruct (Z.eqb_spec x 0) as [-> | Hx].
    - destruct (Z.eqb_spec d 0); [contradiction | reflexivity].
    - destruct (Z.eqb_spec x 0); [contradiction | reflexivity]. }
  rewrite !HZ by discriminate.
  assert (HL : orDefaultLogger (orDefaultLogger (Logger_ config))
               = orDefaultLogger (Logger_ config))
    by (destruct (Logger_ config); reflexivity).
  rewrite HL.
  unfold NewClient_switches, NewClient_compression, orDefaultString.
  cbn [Encoding CompressionAlgo set_Encoding].
  destruct Venc as [<- | [<- | [<- | []]]];
    destruct Valgo as [<- | [<- | []]]; reflexivity.
Qed.

Lemma NewClient_idempotent_witness :
  NewClient (conf defaultClient) = Ok defaultClient.
Proof.
  exact (NewClient_idempotent exampleConfig defaultClient eq_refl).
Defined.

(** X14. [NewBufferedClient] fails exactly when [NewClient] fails on the
    transport part of the configuration, with the same error.  The three
    batching options are never rejected: a negative
    [MaxMessagesPerBatch], [MaxDurationPerBatch] or [MaxConcurrency] is
    stored as supplied. *)
Theorem NewBufferedClient_result (config : BufferedClientConfig) :
  (forall err,
      NewBufferedClient config = Err err <->
      NewClient (clientConfig_of config) = Err err) /\
  (forall c,
      NewClient (clientConfig_of config) = Ok c ->
      exists bc,
        NewBufferedClient config = Ok bc /\ client bc = c /\
        (MaxMessagesPerBatch config <> 0 ->
         MaxMessagesPerBatch (bconf bc) = MaxMessagesPerBatch config) /\
        (MaxDurationPerBatch config <> 0 ->
         MaxDurationPerBatch (bconf bc) = MaxDurationPerBatch config) /\
        (MaxConcurrency config <> 0 ->
         MaxConcurrency (bconf bc) = MaxConcurrency config)).
Proof.
  assert (HZ : forall x d, x <> 0 -> orDefaultZ x d = x).
  { intros x d Hx. unfold orDefaultZ.
    destruct (Z.eqb_spec x 0); [contradiction | reflexivity]. }
  split.
  - intros err. unfold NewBufferedClient. fold (clientConfig_of config).
    destruct (NewClient (clientConfig_of config)) as [c | e];
      split; intros H; try discriminate H; inversion H; reflexivity.
  - intros c Hc.
    destruct (NewBufferedClient config) as [bc | e] eqn:Hbc.
    + destruct (NewBufferedClient_conf _ _ Hbc)
        as (Hcl & Hmm & Hmd & Hmc & _).
      fold (clientConfig_of config) in Hcl. rewrite Hc in Hcl.
      inversion Hcl; subst c.
      exists bc. split; [reflexivity |]. split; [reflexivity |].
      rewrite Hmm, Hmd, Hmc. repeat split; intros Hne; apply HZ; exact Hne.
    + exfalso. revert Hbc. unfold NewBufferedClient.
      fold (clientConfig_of config). rewrite Hc. discriminate.
Qed.

(* ================================================================== *)
(** * Further properties of the batcher *)

(** ** Every message ends up in exactly one batch *)

Lemma size_zero_nil (l : list Message) :
  (Z.of_nat (List.length l) >? 0) = false -> l = [].
Proof.
  destruct l; [reflexivity |]. intros H.
  destruct (Z.gtb_spec (Z.of_nat (List.length (m :: l))) 0) as [G | G];
    [discriminate |]. simpl List.length in G. lia.
Qed.

Lemma held_step conf s now ev s' :
  batchingLoop_step conf s now ev = Some s' ->
  held s' = held s ++ received [(now, ev)].
Proof.
  unfold batchingLoop_step, held, received.
  destruct (exited s) eqn:Hex; [discriminate |].
  destruct ev as [msg | |]; cbn [flat_map snd app].
  - cbn [Msgs].
    destruct (Z.of_nat (List.length (Msgs (b s) ++ [msg]))
              >=? MaxMessagesPerBatch conf);
      cbn [newBatch]; intros H; inversion H; subst s'; clear H;
      cbn [exited outBatches b Msgs].
    + rewrite map_app, concat_app. cbn [map List.concat Msgs].
      rewrite ?app_nil_r, <- ?app_assoc. reflexivity.
    + rewrite ?app_nil_r, <- ?app_assoc. reflexivity.
  - destruct (timer s) as [t |]; [| discriminate].
    destruct (t <=? now); [| discriminate].
    destruct (Z.of_nat (List.length (Msgs (b s))) >? 0) eqn:Hlen;
      cbn [newBatch]; intros H; inversion H; subst s'; clear H;
      cbn [exited outBatches b Msgs].
    + rewrite map_app, concat_app. cbn [map List.concat].
      rewrite ?app_nil_r, <- ?app_assoc. reflexivity.
    + rewrite ?app_nil_r, <- ?app_assoc. reflexivity.
  - destruct (Z.of_nat (List.length (Msgs (b s))) >? 0) eqn:Hlen;
      intros H; inversion H; subst s'; clear H;
      cbn [exited outBatches b Msgs].
    + rewrite map_app, concat_app. cbn [map List.concat].
      rewrite ?app_nil_r, <- ?app_assoc. reflexivity.
    + rewrite (size_zero_nil _ Hlen), ?app_nil_r. reflexivity.
Qed.

Lemma held_run conf sched :
  forall s s',
    batchingLoop_run conf s sched = Some s' ->
    held s' = held s ++ received sched.
Proof.
  induction sched as [| [now ev] sched IH]; intros s s' Hrun; simpl in Hrun.
  - inversion Hrun; subst. unfold received. simpl. rewrite app_nil_r.
    reflexivity.
  - destruct (batchingLoop_step conf s now ev) as [s1 |] eqn:Hstep;
      [| discriminate].
    rewrite (IH _ _ Hrun), (held_step _ _ _ _ _ Hstep), <- app_assoc.
    f_equal. unfold received. cbn [flat_map]. rewrite app_nil_r.
    reflexivity.
Qed.

(** X15. Along every schedule, timer ticks and close included, the
    batcher neither drops, duplicates nor reorders a message: the
    batches handed over so far, read in order, followed by the open batch
    while the loop runs, hold exactly the messages received so far, in
    the order received. *)
Theorem batchingLoop_keeps_messages bc start sched s :
  batchingLoop bc start sched = Some s ->
  held s = received sched.
Proof.
  unfold batchingLoop. intros Hrun.
  rewrite (held_run _ _ _ _ Hrun). reflexivity.
Qed.

Lemma batchingLoop_keeps_messages_witness :
  exists s,
    batchingLoop (mkBufferedClient agedConfig defaultClient 0 0) 0
                 [(ms 10, RecvMsg loginEvent); (ms 50, TimerC);
                  (ms 60, RecvMsg loginEvent); (ms 70, CloseCh)] = Some s /\
    List.concat (map Msgs (outBatches s)) = [loginEvent; loginEvent].
Proof.
  eexists. split; [vm_compute; reflexivity |].
  exact (batchingLoop_keeps_messages
           (mkBufferedClient agedConfig defaultClient 0 0) 0
           [(ms 10, RecvMsg loginEvent); (ms 50, TimerC);
            (ms 60, RecvMsg loginEvent); (ms 70, CloseCh)] _
           ltac:(vm_compute; reflexivity)).
Defined.

(** ** Batch sizes *)

Lemma sizes_inv_step conf s now ev s' :
  sizes_inv (Z.max (MaxMessagesPerBatch conf) 1) s ->
  batchingLoop_step conf s now ev = Some s' ->
  sizes_inv (Z.max (MaxMessagesPerBatch conf) 1) s'.
Proof.
  unfold sizes_inv, batchingLoop_step, size.
  destruct (exited s) eqn:Hex; [discriminate |].
  intros [Hout Hb] Hstep. specialize (Hb eq_refl).
  destruct ev as [msg | |].
  - cbn [Msgs] in Hstep.
    assert (Hl : Z.of_nat (List.length (Msgs (b s) ++ [msg]))
                 = Z.of_nat (List.length (Msgs (b s))) + 1)
      by (rewrite length_app; simpl; lia).
    destruct (Z.geb_spec (Z.of_nat (List.length (Msgs (b s) ++ [msg])))
                         (MaxMessagesPerBatch conf)) as [Hge | Hlt];
      cbn [newBatch] in Hstep; inversion Hstep; subst s'; clear Hstep;
      cbn [exited outBatches b Msgs].
    + split.
      * apply Forall_app. split; [exact Hout |].
        constructor; [| constructor]. cbn [Msgs]. lia.
      * intros _. simpl. lia.
    + split; [exact Hout |]. intros _. lia.
  - destruct (timer s) as [t |]; [| discriminate].
    destruct (t <=? now); [| discriminate].
    destruct (Z.gtb_spec (Z.of_nat (List.length (Msgs (b s)))) 0);
      cbn [newBatch] in Hstep; inversion Hstep; subst s'; clear Hstep;
      cbn [exited outBatches b Msgs].
    + split.
      * apply Forall_app. split; [exact Hout |].
        constructor; [| constructor]. lia.
      * intros _. simpl. lia.
    + split; [exact Hout |]. intros _. exact Hb.
  - destruct (Z.gtb_spec (Z.of_nat (List.length (Msgs (b s)))) 0);
      inversion Hstep; subst s'; clear Hstep;
      cbn [exited outBatches b Msgs].
    + split; [| discriminate].
      apply Forall_app. split; [exact Hout |].
      constructor; [| constructor]. lia.
    + split; [exact Hout | discriminate].
Qed.

Lemma sizes_inv_run conf sched :
  forall s s',
    sizes_inv (Z.max (MaxMessagesPerBatch conf) 1) s ->
    batchingLoop_run conf s sched = Some s' ->
    sizes_inv (Z.max (MaxMessagesPerBatch conf) 1) s'.
Proof.
  induction sched as [| [now ev] sched IH]; intros s s' Hinv Hrun;
    simpl in Hrun.
  - inversion Hrun; subst. exact Hinv.
  - destruct (batchingLoop_step conf s now ev) as [s1 |] eqn:Hstep;
      [| discriminate].
    apply (IH s1 s'); [| exact Hrun].
    apply (sizes_inv_step conf s now ev s1); assumption.
Qed.

Lemma sizes_inv_init conf next now :
  sizes_inv (Z.max (MaxMessagesPerBatch conf) 1) (batchingLoop_init conf next now).
Proof.
  unfold sizes_inv, batchingLoop_init, size. simpl. split; [constructor |].
  intros _. lia.
Qed.

(** X16. With a batch limit of at least 1, along every schedule every
    batch handed over holds between 1 and [MaxMessagesPerBatch] messages,
    and the open batch holds fewer than [MaxMessagesPerBatch]: an empty
    batch is never handed over and the limit is never exceeded. *)
Theorem batchingLoop_batch_sizes bc start sched s :
  1 <= MaxMessagesPerBatch (bconf bc) ->
  batchingLoop bc start sched = Some s ->
  Forall (fun x => 1 <= size (Msgs x) <= MaxMessagesPerBatch (bconf bc))
         (outBatches s) /\
  (exited s = false -> size (Msgs (b s)) < MaxMessagesPerBatch (bconf bc)).
Proof.
  intros HK Hrun. unfold batchingLoop in Hrun.
  pose proof (sizes_inv_run _ _ _ _ (sizes_inv_init _ _ _) Hrun) as H.
  rewrite Z.max_l in H by lia. exact H.
Qed.

Lemma batchingLoop_batch_sizes_witness :
  exists s,
    batchingLoop (mkBufferedClient thousandConfig defaultClient 0 0) 0
                 (map recv (repeat (1, loginEvent) 1500) ++ [(ms 50, TimerC)])
    = Some s /\
    Forall (fun x => 1 <= size (Msgs x) <= 1000) (outBatches s).
Proof.
  destruct (batchingLoop (mkBufferedClient thousandConfig defaultClient 0 0) 0
              (map recv (repeat (1, loginEvent) 1500) ++ [(ms 50, TimerC)]))
    as [s |] eqn:Hrun; [| vm_compute in Hrun; discriminate Hrun].
  exists s. split; [reflexivity |].
  refine (proj1 (batchingLoop_batch_sizes _ _ _ _ _ Hrun)).
  simpl. lia.
Defined.

(** X17. A [MaxMessagesPerBatch] below 1 is accepted by the constructor
    when negative, and then every message is handed over at once as a
    batch of its own: along every schedule all batches hold exactly one
    message and the open batch is empty. *)
Theorem negative_limit_singleton_batches config bc start sched s :
  NewBufferedClient config = Ok bc ->
  MaxMessagesPerBatch config < 0 ->
  batchingLoop bc start sched = Some s ->
  MaxMessagesPerBatch (bconf bc) = MaxMessagesPerBatch config /\
  Forall (fun x => size (Msgs x) = 1) (outBatches s) /\
  (exited s = false -> Msgs (b s) = []) /\
  List.length (outBatches s) = List.length (received sched).
Proof.
  intros Hnew Hneg Hrun.
  destruct (NewBufferedClient_conf _ _ Hnew) as (_ & Hmm & _).
  assert (HK : MaxMessagesPerBatch (bconf bc) = MaxMessagesPerBatch config).
  { rewrite Hmm. unfold orDefaultZ.
    destruct (Z.eqb_spec (MaxMessagesPerBatch config) 0); [lia | reflexivity]. }
  pose proof (held_run _ _ _ _ Hrun) as Hheld.
  unfold batchingLoop in Hrun.
  pose proof (sizes_inv_run _ _ _ _ (sizes_inv_init _ _ _) Hrun) as [H1 H2].
  rewrite Z.max_r in H1, H2 by lia.
  assert (Hone : Forall (fun x => size (Msgs x) = 1) (outBatches s)).
  { eapply Forall_impl; [| exact H1]. simpl. intros x Hx. lia. }
  assert (Hb : exited s = false -> Msgs (b s) = []).
  { intros Hex. specialize (H2 Hex). unfold size in H2.
    destruct (Msgs (b s)); [reflexivity | simpl in H2; lia]. }
  split; [exact HK |]. split; [exact Hone |]. split; [exact Hb |].
  assert (Hlen : List.length (held s) = List.length (outBatches s)).
  { unfold held. rewrite length_app.
    assert (Hp : List.length (if exited s then [] else Msgs (b s)) = 0%nat).
    { destruct (exited s) eqn:Hex; [reflexivity |]. rewrite Hb; reflexivity. }
    rewrite Hp, Nat.add_0_r. clear - Hone.
    induction Hone as [| x l Hx _ IH]; [reflexivity |].
    cbn [map List.concat List.length]. rewrite length_app, IH.
    unfold size in Hx. lia. }
  rewrite <- Hlen, Hheld. reflexivity.
Qed.

Lemma negative_limit_singleton_batches_witness :
  exists bc s,
    NewBufferedClient negativeLimitConfig = Ok bc /\
    batchingLoop bc 0 (map recv (repeat (1, loginEvent) 3)) = Some s /\
    Forall (fun x => size (Msgs x) = 1) (outBatches s) /\
    List.length (outBatches s) = 3%nat.
Proof.
  assert (Hnew : NewBufferedClient negativeLimitConfig
                 = Ok (mkBufferedClient negativeLimitConfig defaultClient 0 0))
    by (vm_compute; reflexivity).
  destruct (batchingLoop (mkBufferedClient negativeLimitConfig defaultClient 0 0)
              0 (map recv (repeat (1, loginEvent) 3)))
    as [s |] eqn:Hrun; [| vm_compute in Hrun; discriminate Hrun].
  exists (mkBufferedClient negativeLimitConfig defaultClient 0 0), s.
  split; [exact Hnew |]. split; [exact Hrun |].
  destruct (negative_limit_singleton_batches _ _ _ _ _ Hnew
              ltac:(simpl; lia) Hrun) as (_ & H & _ & Hl).
  split; [exact H | exact Hl].
Defined.

(** ** The age timer, from the start of the loop *)

Lemma recv_below_limit conf tmsgs :
  forall s,
    exited s = false ->
    size (Msgs (b s)) + Z.of_nat (List.length tmsgs) < MaxMessagesPerBatch conf ->
    batchingLoop_run conf s (map recv tmsgs)
    = Some (mkBatcher (mkMessages (BatchId (b s)) (Msgs (b s) ++ map snd tmsgs))
                      (counter s) (timer s) (outBatches s) false).
Proof.
  unfold size.
  induction tmsgs as [| [t m] tmsgs IH]; intros s Hex Hlt.
  - simpl. rewrite app_nil_r. destruct s as [[id msgs] cnt tm out ex].
    simpl in *. subst ex. reflexivity.
  - cbn [map recv fst snd batchingLoop_run]. unfold batchingLoop_step.
    rewrite Hex. cbn [Msgs].
    assert (Hl : Z.of_nat (List.length (Msgs (b s) ++ [m]))
                 = Z.of_nat (List.length (Msgs (b s))) + 1)
      by (rewrite length_app; simpl; lia).
    cbn [List.length] in Hlt.
    destruct (Z.geb_spec (Z.of_nat (List.length (Msgs (b s) ++ [m])))
                         (MaxMessagesPerBatch conf)) as [Hge | _]; [lia |].
    rewrite IH; cbn [exited b Msgs BatchId counter timer outBatches].
    + rewrite <- app_assoc. reflexivity.
    + reflexivity.
    + lia.
Qed.

(** X18. The age limit runs from the start of the loop, not from the
    first message.  With fewer than [MaxMessagesPerBatch] messages
    received, the timer case cannot fire before [MaxDurationPerBatch] has
    passed since the loop started; when it fires, it hands over one batch
    holding all pending messages, or nothing when none is pending, and
    leaves an empty open batch. *)
Theorem first_tick_seals_pending bc start tmsgs t :
  Z.of_nat (List.length tmsgs) < MaxMessagesPerBatch (bconf bc) ->
  (t < start + MaxDurationPerBatch (bconf bc) ->
   batchingLoop bc start (map recv tmsgs ++ [(t, TimerC)]) = None) /\
  (start + MaxDurationPerBatch (bconf bc) <= t ->
   exists s,
     batchingLoop bc start (map recv tmsgs ++ [(t, TimerC)]) = Some s /\
     map Msgs (outBatches s)
     = match tmsgs with [] => [] | _ => [map snd tmsgs] end /\
     Msgs (b s) = [] /\ exited s = false).
Proof.
  intros Hlt. unfold batchingLoop. rewrite batchingLoop_run_app.
  rewrite recv_below_limit by (unfold size; simpl; try reflexivity; lia).
  cbn [batchingLoop_init newBatch b Msgs BatchId counter timer outBatches app
       batchingLoop_run].
  unfold batchingLoop_step. cbn [exited timer b Msgs outBatches counter].
  split; intros Ht.
  - destruct (Z.leb_spec (start + MaxDurationPerBatch (bconf bc)) t);
      [lia | reflexivity].
  - destruct (Z.leb_spec (start + MaxDurationPerBatch (bconf bc)) t);
      [| lia].
    destruct tmsgs as [| tm tmsgs].
    + simpl. eexists. repeat split.
    + destruct (Z.gtb_spec (Z.of_nat (List.length (map snd (tm :: tmsgs)))) 0)
        as [_ | Hz]; [| simpl in Hz; lia].
      cbn [newBatch]. eexists. repeat split.
Qed.

Lemma first_tick_seals_pending_witness :
  batchingLoop (mkBufferedClient agedConfig defaultClient 0 0) 0
               [(ms 49, RecvMsg loginEvent); (ms 49, TimerC)] = None /\
  exists s,
    batchingLoop (mkBufferedClient agedConfig defaultClient 0 0) 0
                 [(ms 49, RecvMsg loginEvent); (ms 50, TimerC)] = Some s /\
    map Msgs (outBatches s) = [[loginEvent]].
Proof.
  split.
  - apply (proj1 (first_tick_seals_pending
                    (mkBufferedClient agedConfig defaultClient 0 0) 0
                    [(ms 49, loginEvent)] (ms 49) ltac:(simpl; lia))).
    vm_compute. reflexivity.
  - destruct (proj2 (first_tick_seals_pending
                       (mkBufferedClient agedConfig defaultClient 0 0) 0
                       [(ms 49, loginEvent)] (ms 50) ltac:(simpl; lia))
                    ltac:(vm_compute; discriminate))
      as (s & H1 & H2 & _).
    exists s. split; assumption.
Defined.

(** X19. The timer case fires at most once per timer setting, and only
    the size case sets the timer: between one tick and the next, at least
    [MaxMessagesPerBatch] messages have been received.  A stream that
    never fills a batch is sealed by age at most once. *)
Theorem tick_needs_full_batch conf s t s1 tmsgs s2 t' s3 :
  batchingLoop_step conf s t TimerC = Some s1 ->
  batchingLoop_run conf s1 (map recv tmsgs) = Some s2 ->
  batchingLoop_step conf s2 t' TimerC = Some s3 ->
  MaxMessagesPerBatch conf <= Z.of_nat (List.length tmsgs).
Proof.
  intros H1 H2 H3.
  destruct (Z.le_gt_cases (MaxMessagesPerBatch conf)
                          (Z.of_nat (List.length tmsgs))) as [Hle | Hgt];
    [exact Hle | exfalso].
  assert (Hs1 : exited s1 = false /\ timer s1 = None /\ Msgs (b s1) = []).
  { revert H1. unfold batchingLoop_step.
    destruct (exited s); [discriminate |].
    destruct (timer s) as [tm |]; [| discriminate].
    destruct (tm <=? t); [| discriminate].
    destruct (Z.of_nat (List.length (Msgs (b s))) >? 0) eqn:Hlen;
      cbn [newBatch]; intros H; inversion H; subst s1;
      cbn [exited timer b Msgs]; repeat split.
    apply size_zero_nil. exact Hlen. }
  destruct Hs1 as (Hex & Htm & Hb).
  rewrite recv_below_limit in H2
    by (try exact Hex; unfold size; rewrite Hb; simpl; lia).
  inversion H2; subst s2; clear H2.
  revert H3. unfold batchingLoop_step. cbn [exited timer]. rewrite Htm.
  discriminate.
Qed.

Lemma tick_needs_full_batch_witness :
  exists s1 s2 s3,
    batchingLoop (mkBufferedClient pairConfig defaultClient 0 0) 0
                 [(ms 50, TimerC)] = Some s1 /\
    batchingLoop_run pairConfig s1
                     (map recv [(ms 60, loginEvent); (ms 61, loginEvent)])
    = Some s2 /\
    batchingLoop_step pairConfig s2 (ms 111) TimerC = Some s3 /\
    MaxMessagesPerBatch pairConfig <= 2.
Proof.
  eexists. eexists. eexists.
  split; [vm_compute; reflexivity |].
  split; [vm_compute; reflexivity |].
  split; [vm_compute; reflexivity |].
  exact (tick_needs_full_batch
           pairConfig
           (mkBatcher (mkMessages "b-0-0" []) 1 (Some (ms 50)) [] false)
           (ms 50)
           (mkBatcher (mkMessages "b-0-0" []) 1 None [] false)
           [(ms 60, loginEvent); (ms 61, loginEvent)]
           (mkBatcher (mkMessages "b-61-1" []) 2 (Some (ms 111))
                      [mkMessages "b-0-0" [loginEvent; loginEvent]] false)
           (ms 111)
           (mkBatcher (mkMessages "b-61-1" []) 2 None
                      [mkMessages "b-0-0" [loginEvent; loginEvent]] false)
           ltac:(vm_compute; reflexivity)
           ltac:(vm_compute; reflexivity)
           ltac:(vm_compute; reflexivity)).
Defined.

(** ** Close *)

(** X20. The close case ends the loop.  From any state the loop can
    reach while running, the close signal is taken, and afterwards the
    batches handed over hold every message received; in a schedule the
    loop completes, nothing follows the close signal: no message is
    accepted and no batch is created after it. *)
Theorem close_flushes_and_ends bc start sched t :
  (forall s,
      batchingLoop bc start sched = Some s -> exited s = false ->
      exists s',
        batchingLoop bc start (sched ++ [(t, CloseCh)]) = Some s' /\
        exited s' = true /\
        List.concat (map Msgs (outBatches s')) = received sched) /\
  (forall rest s',
      batchingLoop bc start (sched ++ (t, CloseCh) :: rest) = Some s' ->
      rest = []).
Proof.
  split.
  - intros s Hrun Hex.
    assert (Hstep : exists s', batchingLoop_step (bconf bc) s t CloseCh = Some s'
                               /\ exited s' = true).
    { unfold batchingLoop_step. rewrite Hex.
      destruct (Z.of_nat (List.length (Msgs (b s))) >? 0);
        eexists; split; reflexivity. }
    destruct Hstep as (s' & Hstep & Hex').
    assert (Hrun' : batchingLoop bc start (sched ++ [(t, CloseCh)]) = Some s').
    { unfold batchingLoop in *. rewrite batchingLoop_run_app, Hrun.
      simpl. rewrite Hstep. reflexivity. }
    exists s'. split; [exact Hrun' |]. split; [exact Hex' |].
    pose proof (held_run _ _ _ _ Hrun') as Hh.
    unfold held in Hh. rewrite Hex' in Hh. rewrite app_nil_r in Hh.
    rewrite Hh. unfold batchingLoop_init, received. simpl.
    rewrite flat_map_app. simpl. rewrite app_nil_r. reflexivity.
  - intros rest s' Hrun. unfold batchingLoop in Hrun.
    rewrite batchingLoop_run_app in Hrun.
    destruct (batchingLoop_run _ _ sched) as [s |]; [| discriminate].
    cbn [batchingLoop_run] in Hrun.
    destruct (batchingLoop_step (bconf bc) s t CloseCh) as [s1 |] eqn:Hstep;
      [| discriminate].
    assert (Hex : exited s1 = true).
    { revert Hstep. unfold batchingLoop_step.
      destruct (exited s); [discriminate |].
      destruct (Z.of_nat (List.length (Msgs (b s))) >? 0);
        intros H; inversion H; reflexivity. }
    destruct rest as [| [t2 ev2] rest]; [reflexivity |].
    cbn [batchingLoop_run] in Hrun. unfold batchingLoop_step in Hrun.
    rewrite Hex in Hrun. discriminate.
Qed.

(** ** Reading an identifier back *)

(** X21. A batch identifier determines both numbers it was printed from:
    two identifiers with non-negative counters are equal only if they
    were made in the same millisecond from the same counter value. *)
Theorem batchID_inj t1 c1 t2 c2 :
  0 <= c1 -> 0 <= c2 ->
  batchID t1 c1 = batchID t2 c2 -> t1 = t2 /\ c1 = c2.
Proof.
  intros H1 H2 H.
  assert (Hc : c1 = c2) by (apply (batchID_counter_inj t1 c1 t2 c2); assumption).
  subst c2. split; [| reflexivity].
  unfold batchID in H.
  apply (f_equal list_ascii_of_string) in H.
  rewrite !list_ascii_of_string_app in H.
  apply app_inv_head in H. rewrite !app_assoc in H.
  apply app_inv_tail in H. apply app_inv_tail in H.
  apply Itoa_inj, list_ascii_of_string_inj. exact H.
Qed.

Lemma batchID_inj_witness :
  batchID 1700000000123 7 = batchID 1700000000123 7 /\
  1700000000123 = 1700000000123 /\ 7 = 7.
Proof.
  split; [reflexivity |].
  apply (batchID_inj 1700000000123 7 1700000000123 7); [lia | lia | reflexivity].
Defined.
